(** * Confidence extraction and aggregation: a shallow embedding

    The development embeds the harvesting scripts of the repository

    - [boltz_ipsae_boltz2.py] (module [Boltz]),
    - [get_ipsae_AF3.py]      (module [AF3]),
    - [AF3_AB_iptm.py]        (module [AF3AB]),

    and states the properties of the specification about them.

    Conventions of the embedding:

    - a Python [str] is a Rocq [string]; a character is a code point below
      256, so the only decimal digits are [0]..[9] and the white space
      characters are those of [isspace] below;
    - a Python [float] is an element of an abstract type with the two
      comparisons the scripts use (class [PyFloat]); examples are run on the
      IEEE binary64 instance [binary64];
    - an absolute, normalised path is the list of its components below the
      filesystem root; the filesystem is a finite map from paths to nodes;
    - code that prints, touches the filesystem or starts a process is a
      function from the world to an outcome and a new world; a [print] of
      the source appends its message to the world's standard output;
    - the external scorer, the JSON and YAML readers and the directory
      listing order are parameters (class [External]). *)

From Stdlib Require Import ZArith String Ascii List Bool Lia Sorted Permutation.
From Corelib Require Import SpecFloat.
From stdpp Require Import gmap strings list pretty.

Local Open Scope string_scope.
Set Warnings "-register-all".

(** ** Python strings *)

Module PyStr.

(** [str.isspace] on one character (code points below 256). *)
Definition isspace (c : ascii) : bool :=
  let n := nat_of_ascii c in
  ((9 <=? n)%nat && (n <=? 13)%nat) || ((28 <=? n)%nat && (n <=? 32)%nat)
  || (n =? 133)%nat || (n =? 160)%nat.

(** [c in "0123456789"]: what [\d] and [str.isdigit] accept below 256
    ([isdigit] also accepts the superscripts 178, 179 and 185). *)
Definition is_decimal (c : ascii) : bool :=
  let n := nat_of_ascii c in (48 <=? n)%nat && (n <=? 57)%nat.

Definition isdigit_char (c : ascii) : bool :=
  let n := nat_of_ascii c in
  is_decimal c || (n =? 178)%nat || (n =? 179)%nat || (n =? 185)%nat.

Fixpoint lstrip (s : string) : string :=
  match s with
  | EmptyString => EmptyString
  | String c s' => if isspace c then lstrip s' else s
  end.

Fixpoint rstrip (s : string) : string :=
  match s with
  | EmptyString => EmptyString
  | String c s' =>
      match rstrip s' with
      | EmptyString => if isspace c then EmptyString else String c EmptyString
      | r => String c r
      end
  end.

(** [s.strip()] *)
Definition strip (s : string) : string := rstrip (lstrip s).

Definition cons_word (w : string) (ws : list string) : list string :=
  match w with EmptyString => ws | _ => w :: ws end.

(** The word being read at the front of [s], and the words after it. *)
Fixpoint split_aux (s : string) : string * list string :=
  match s with
  | EmptyString => (EmptyString, [])
  | String c s' =>
      let '(w, ws) := split_aux s' in
      if isspace c then (EmptyString, cons_word w ws) else (String c w, ws)
  end.

(** [s.split()]: maximal runs of non-space characters. *)
Definition split (s : string) : list string :=
  let '(w, ws) := split_aux s in cons_word w ws.

Definition is_newline (c : ascii) : bool :=
  let n := nat_of_ascii c in (n =? 10)%nat || (n =? 13)%nat.

Fixpoint readlines_aux (s : string) : string * list string :=
  match s with
  | EmptyString => (EmptyString, [])
  | String c s' =>
      let '(l, ls) := readlines_aux s' in
      if is_newline c then (EmptyString, l :: ls) else (String c l, ls)
  end.

(** The lines of a text file opened with universal newlines, without their
    terminators.  A file that ends with a terminator yields a last empty
    line here and a [CR LF] pair yields an empty line in between; every
    reader below strips each line and drops the empty ones. *)
Definition readlines (s : string) : list string :=
  let '(l, ls) := readlines_aux s in l :: ls.

(** [s.startswith(p)] *)
Definition startswith (s p : string) : bool := String.prefix p s.

Definition lower_char (c : ascii) : ascii :=
  let n := nat_of_ascii c in
  if ((65 <=? n)%nat && (n <=? 90)%nat) || ((192 <=? n)%nat && (n <=? 222)%nat && negb (n =? 215)%nat)
  then ascii_of_nat (n + 32) else c.

(** [s.lower()] *)
Fixpoint lower (s : string) : string :=
  match s with
  | EmptyString => EmptyString
  | String c s' => String (lower_char c) (lower s')
  end.

(** [s < t] on strings: lexicographic on code points. *)
Fixpoint str_lt (s t : string) : bool :=
  match s, t with
  | _, EmptyString => false
  | EmptyString, String _ _ => true
  | String a s', String b t' =>
      if (nat_of_ascii a <? nat_of_ascii b)%nat then true
      else if (nat_of_ascii b <? nat_of_ascii a)%nat then false
      else str_lt s' t'
  end.

(** Value of a run of decimal digits, most significant first. *)
Fixpoint digits_value (acc : N) (s : string) : N :=
  match s with
  | EmptyString => acc
  | String c s' => digits_value (acc * 10 + (N_of_ascii c - 48))%N s'
  end.

(** [l.index(x)]: position of the first occurrence, [None] for
    [ValueError]. *)
Fixpoint index (x : string) (l : list string) : option nat :=
  match l with
  | [] => None
  | y :: l' => if String.eqb y x then Some 0%nat else S <$> index x l'
  end.

(** [l[i]] for an index known to be in range ([""] stands for the
    [IndexError] that the callers exclude by a length test). *)
Definition item (l : list string) (i : nat) : string := nth i l "".

End PyStr.

(** ** Python floats *)

Class PyFloat := {
  float : Type;
  (** [float(s)]; [None] is [ValueError] *)
  float_of_string : string -> option float;
  (** the value of the decimal literal [m]e[e] *)
  float_of_decimal : Z -> Z -> float;
  (** [x > y] *)
  float_gt : float -> float -> bool;
  (** [x >= y] *)
  float_ge : float -> float -> bool
}.

(** IEEE binary64, on the specification floats of the core library. *)
Module Binary64.

Definition prec : Z := 53.
Definition emax : Z := 1024.

(** The binary64 number nearest to [m * 10^e] (ties to even). *)
Definition of_decimal (m e : Z) : spec_float :=
  let sign := (m <? 0)%Z in
  match Z.abs m with
  | Zpos p =>
      if (0 <=? e)%Z
      then binary_normalize prec emax (Z.abs m * 10 ^ e) 0 sign
      else SFdiv prec emax (S754_finite sign p 0)
                 (S754_finite false (Z.to_pos (10 ^ (- e))) 0)
  | _ => S754_zero sign
  end.

(** A maximal run of decimal digits at the front: its value, its length
    and what follows it. *)
Fixpoint digits (s : string) (acc : N) (n : nat) : N * nat * string :=
  match s with
  | String c s' =>
      if PyStr.is_decimal c
      then digits s' (acc * 10 + (N_of_ascii c - 48))%N (S n)
      else (acc, n, s)
  | EmptyString => (acc, n, s)
  end.

Definition sign_of (s : string) : bool * string :=
  match s with
  | String "-" s' => (true, s')
  | String "+" s' => (false, s')
  | _ => (false, s)
  end.

(** The exponent part [e[sign]digits], or nothing. *)
Definition exponent (s : string) : option Z :=
  match s with
  | EmptyString => Some 0%Z
  | String c s' =>
      if Ascii.eqb c "e" || Ascii.eqb c "E" then
        let '(neg, s1) := sign_of s' in
        match digits s1 0%N 0%nat with
        | (_, O, _) => None
        | (v, _, EmptyString) => Some (if neg then (- Z.of_N v)%Z else Z.of_N v)
        | _ => None
        end
      else None
  end.

(** [float(s)] for a string without white space: an optional sign followed
    by [inf], [infinity], [nan] (any case) or by a decimal number with an
    optional fraction and an optional exponent.  Digit grouping with
    underscores is not covered: such a string is rejected here. *)
Definition of_string (s : string) : option spec_float :=
  let '(neg, s0) := sign_of s in
  let low := PyStr.lower s0 in
  if String.eqb low "inf" || String.eqb low "infinity" then Some (S754_infinity neg)
  else if String.eqb low "nan" then Some S754_nan
  else
    let '(ip, ni, s1) := digits s0 0%N 0%nat in
    let '(fp, nf, s2) :=
      match s1 with
      | String "." s1' => digits s1' ip 0%nat
      | _ => (ip, 0%nat, s1)
      end in
    match (ni + nf)%nat with
    | O => None
    | _ =>
        match exponent s2 with
        | Some e =>
            match fp with
            | N0 => Some (S754_zero neg)
            | Npos p => Some (of_decimal (if neg then Zneg p else Zpos p) (e - Z.of_nat nf))
            end
        | None => None
        end
    end.

End Binary64.

#[export] Instance binary64 : PyFloat := {|
  float := spec_float;
  float_of_string := Binary64.of_string;
  float_of_decimal := Binary64.of_decimal;
  float_gt x y := SFltb y x;
  float_ge x y := SFleb y x
|}.

(** ** The world the scripts run in *)

(** An absolute path: its components below the root, outermost first. *)
Definition path := list string.

Inductive node :=
| Dir
| File (content : string).

(** [str(p)] *)
Definition path_str (p : path) : string :=
  match p with
  | [] => "/"
  | _ => String.concat "" (map (fun c => "/" ++ c) p)
  end.

(** [p / name] and [os.path.join(p, name)] for a relative [name] without
    separators. *)
Definition join (p : path) (name : string) : path := (p ++ [name])%list.

(** One [print]: the text of the message and the values interpolated into
    it (numbers formatted by the source are left out). *)
Inductive event := Print (text : string) (args : list string).

Record world := World {
  fs : gmap path node;                  (* the filesystem *)
  procs : list (list string * path);    (* subprocess.run calls: command, cwd *)
  stdout : list event                   (* what has been printed *)
}.

Inductive exn :=
| AttributeError
| TypeError
| ValueError
| KeyError
| OSError
| SystemExit (code : Z).

Inductive outcome (A : Type) :=
| Ok (a : A)
| Raise (e : exn).
Arguments Ok {A} a.
Arguments Raise {A} e.

(** Parsed JSON and YAML documents.  Mapping keys are strings. *)
Inductive value `{PyFloat} :=
| VNone
| VBool (b : bool)
| VInt (n : Z)
| VFloat (x : float)
| VStr (s : string)
| VList (l : list value)
| VDict (d : list (string * value)).

(** What the scripts take from their environment. *)
Class External `{PyFloat} := {
  (** [subprocess.run(cmd, cwd=cwd)]: exit status and the filesystem the
      process leaves behind *)
  subprocess_run : list string -> path -> gmap path node -> Z * gmap path node;
  (** [json.load]; [None] when it raises *)
  json_load : string -> option value;
  (** [yaml.safe_load]; [None] when it raises *)
  yaml_safe_load : string -> option value;
  (** the order in which the entries of a directory are listed *)
  os_listdir : gmap path node -> path -> list string;
  (** [sys.executable] *)
  sys_executable : string;
  (** [str(v)] for a float or a container *)
  py_repr : value -> string
}.

Module IO.

Definition io (A : Type) : Type := world -> outcome A * world.

Definition ret {A} (a : A) : io A := fun w => (Ok a, w).

Definition bind {A B} (m : io A) (k : A -> io B) : io B :=
  fun w => match m w with
           | (Ok a, w') => k a w'
           | (Raise e, w') => (Raise e, w')
           end.

Definition raise {A} (e : exn) : io A := fun w => (Raise e, w).

(** [try: m except Exception: h] ([SystemExit] is not an [Exception]). *)
Definition try_except {A} (m : io A) (h : io A) : io A :=
  fun w => match m w with
           | (Raise (SystemExit c), w') => (Raise (SystemExit c), w')
           | (Raise _, w') => h w'
           | r => r
           end.

Definition lift {A} (o : outcome A) : io A := fun w => (o, w).

Definition print (text : string) (args : list string) : io unit :=
  fun w => (Ok tt, World (fs w) (procs w) (stdout w ++ [Print text args])).

Definition is_file (p : path) : io bool :=
  fun w => (Ok (match fs w !! p with Some (File _) => true | _ => false end), w).

Definition is_dir (p : path) : io bool :=
  fun w => (Ok (match fs w !! p with Some Dir => true | _ => false end), w).

Definition exists_ (p : path) : io bool :=
  fun w => (Ok (match fs w !! p with Some _ => true | None => false end), w).

(** [open(p).read()] *)
Definition read (p : path) : io string :=
  fun w => match fs w !! p with
           | Some (File c) => (Ok c, w)
           | _ => (Raise OSError, w)
           end.

(** [subprocess.run(cmd, cwd=cwd, check=True)]: the exit status;
    the caller turns a non-zero status into [CalledProcessError]. *)
Definition run `{External} (cmd : list string) (cwd : path) : io Z :=
  fun w => let '(status, fs') := subprocess_run cmd cwd (fs w) in
           (Ok status, World fs' (procs w ++ [(cmd, cwd)]) (stdout w)).

Definition listdir `{External} (p : path) : io (list string) :=
  fun w => (Ok (os_listdir (fs w) p), w).

(** [for x in l: acc = body(acc, x)] *)
Fixpoint for_each {A B} (l : list A) (acc : B) (body : B -> A -> io B) : io B :=
  match l with
  | [] => ret acc
  | x :: l' => bind (body acc x) (fun acc' => for_each l' acc' body)
  end.

End IO.

Declare Scope io_scope.
Delimit Scope io_scope with io.
Notation "'do' x <- m ; k" := (IO.bind m (fun x => k))
  (at level 10, x name, m at level 100, k at level 200) : io_scope.
Notation "'do' ' p <- m ; k" := (IO.bind m (fun x => let 'p := x in k))
  (at level 10, p pattern, m at level 100, k at level 200) : io_scope.
Notation "m ;; k" := (IO.bind m (fun _ => k))
  (at level 100, k at level 200, right associativity) : io_scope.

(** ** Documents *)

Module Doc.
Section Doc.
Context `{External}.

(** [d.get(k)]: the first binding of [k]. *)
Fixpoint lookup (k : string) (d : list (string * value)) : option value :=
  match d with
  | [] => None
  | (k', v) :: d' => if String.eqb k' k then Some v else lookup k d'
  end.

(** [v.get(k, default)]; only a mapping has [get]. *)
Definition get (v : value) (k : string) (default : value) : outcome value :=
  match v with
  | VDict d => Ok (match lookup k d with Some x => x | None => default end)
  | _ => Raise AttributeError
  end.

(** The items a [for] loop over [v] visits. *)
Definition iter (v : value) : outcome (list value) :=
  match v with
  | VList l => Ok l
  | VDict d => Ok (map (fun kv => VStr (fst kv)) d)
  | VStr s => Ok (map (fun c => VStr (String c EmptyString)) (list_ascii_of_string s))
  | _ => Raise TypeError
  end.

Definition is_str (v : value) (s : string) : bool :=
  match v with VStr t => String.eqb t s | _ => false end.

(** [str(v)] *)
Definition str (v : value) : string :=
  match v with
  | VStr s => s
  | VNone => "None"
  | VBool true => "True"
  | VBool false => "False"
  | VInt n => pretty n
  | _ => py_repr v
  end.

(** [s in l] for a list of strings. *)
Definition str_in (s : string) (l : list string) : bool :=
  existsb (String.eqb s) l.

End Doc.
End Doc.

(** ** Sorting with a key *)

Module PySort.
Section PySort.
Context {K A : Type}.
(** [a < b] on keys; it may raise. *)
Variable lt : K -> K -> outcome bool.

(** Insert [x] in front of the sorted list [l], whose elements all come
    after [x] in the input: [x] goes before the first element that is not
    below it, so that equal keys keep their input order. *)
Fixpoint insert (x : K * A) (l : list (K * A)) : outcome (list (K * A)) :=
  match l with
  | [] => Ok [x]
  | y :: l' =>
      match lt (fst y) (fst x) with
      | Raise e => Raise e
      | Ok true => match insert x l' with
                   | Ok r => Ok (y :: r)
                   | Raise e => Raise e
                   end
      | Ok false => Ok (x :: l)
      end
  end.

Fixpoint sort_decorated (l : list (K * A)) : outcome (list (K * A)) :=
  match l with
  | [] => Ok []
  | x :: l' => match sort_decorated l' with
               | Ok s => insert x s
               | Raise e => Raise e
               end
  end.

Fixpoint decorate (key : A -> outcome K) (l : list A) : outcome (list (K * A)) :=
  match l with
  | [] => Ok []
  | x :: l' =>
      match key x with
      | Raise e => Raise e
      | Ok k => match decorate key l' with
                | Ok r => Ok ((k, x) :: r)
                | Raise e => Raise e
                end
      end
  end.

(** [sorted(l, key=key)] and [l.sort(key=key)].  The keys are computed
    first; the sort is stable and compares keys with [<] only.  Python's
    sort is observed through its result or through the exception of a
    comparison, and a comparison raises here exactly when the list holds
    two keys that cannot be compared; the order in which Python compares
    is not modelled. *)
Definition sorted (key : A -> outcome K) (l : list A) : outcome (list A) :=
  match decorate key l with
  | Raise e => Raise e
  | Ok d => match sort_decorated d with
            | Ok s => Ok (map snd s)
            | Raise e => Raise e
            end
  end.

End PySort.
End PySort.

(** ** boltz_ipsae_boltz2.py *)

Module Boltz.
Section Boltz.
Context `{External}.
Import IO.
Local Open Scope io_scope.

(** [PurePath.stem]: the name up to its last dot, when that dot is neither
    the first nor the last character. *)
Definition stem (name : string) : string :=
  let cs := list_ascii_of_string name in
  let n := List.length cs in
  (* [j]: distance of the last dot from the end of the name *)
  match List.find (fun jc => Ascii.eqb (snd jc) ".") (combine (seq 0 n) (rev cs)) with
  | Some (j, _) =>
      if ((0 <? j)%nat && (j <? n - 1)%nat)%bool
      then string_of_list_ascii (firstn (n - 1 - j) cs)
      else name
  | None => name
  end.

(** [run_ipsae(pred_dir, ipsae_script, pae_name, cif_name, d0_chn, d0_dom)] *)
Definition run_ipsae (pred_dir ipsae_script : path)
    (pae_name cif_name : string) (d0_chn d0_dom : Z) : io (option path) :=
  let pae_path := join pred_dir pae_name in
  let cif_path := join pred_dir cif_name in
  do pae_ok <- is_file pae_path;
  do cif_ok <- is_file cif_path;
  if negb pae_ok || negb cif_ok then
    print "[WARN] Missing PAE or CIF in {pred_dir}, skipping." [path_str pred_dir];;
    ret None
  else
    let base := stem cif_name in
    let out_txt := join pred_dir (base ++ "_" ++ pretty d0_chn ++ "_" ++ pretty d0_dom ++ ".txt") in
    do out_ok <- is_file out_txt;
    if negb out_ok then
      print "[INFO] Running ipsae.py in {pred_dir}..." [path_str pred_dir];;
      let cmd := ["python"; path_str ipsae_script; path_str pae_path; path_str cif_path;
                  pretty d0_chn; pretty d0_dom] in
      do status <- run cmd pred_dir;
      if negb (status =? 0)%Z then
        print "[ERROR] ipsae.py failed in {pred_dir}: {e}" [path_str pred_dir; pretty status];;
        ret None
      else
        do out_ok' <- is_file out_txt;
        if negb out_ok' then
          print "[ERROR] Expected output {out_txt} not found after ipsae.py." [path_str out_txt];;
          ret None
        else ret (Some out_txt)
    else ret (Some out_txt).

(** The loop of [parse_ipsae_max] over the lines of the file. *)
Fixpoint parse_ipsae_max_lines (lines : list string) : option float :=
  match lines with
  | [] => None
  | line :: rest =>
      let line := PyStr.strip line in
      if String.eqb line "" || PyStr.startswith line "Chn1" then parse_ipsae_max_lines rest
      else
        let cols := PyStr.split line in
        if (List.length cols <? 6)%nat then parse_ipsae_max_lines rest
        else
          (* Type column is index 4; ipSAE is index 5 *)
          if String.eqb (PyStr.item cols 4) "max" then
            match float_of_string (PyStr.item cols 5) with
            | Some v => Some v
            | None => parse_ipsae_max_lines rest
            end
          else parse_ipsae_max_lines rest
  end.

(** [parse_ipsae_max(out_txt)] *)
Definition parse_ipsae_max (out_txt : path) : io (option float) :=
  do content <- read out_txt;
  match parse_ipsae_max_lines (PyStr.readlines content) with
  | Some v => ret (Some v)
  | None =>
      print "[WARN] No 'max' line with valid ipSAE found in {out_txt}" [path_str out_txt];;
      ret None
  end.

(** [float(v)] for a document value. *)
Definition to_float (v : value) : outcome float :=
  match v with
  | VFloat x => Ok x
  | VInt n => Ok (float_of_decimal n 0)
  | VBool b => Ok (float_of_decimal (if b then 1 else 0) 0)
  | VStr s => match float_of_string (PyStr.strip s) with
              | Some x => Ok x
              | None => Raise ValueError
              end
  | _ => Raise TypeError
  end.

(** [key in data] *)
Definition contains (data : value) (key : string) : outcome bool :=
  match data with
  | VDict d => Ok (match Doc.lookup key d with Some _ => true | None => false end)
  | VList l => Ok (existsb (fun v => Doc.is_str v key) l)
  | VStr s => Ok (match String.index 0 key s with Some _ => true | None => false end)
  | _ => Raise TypeError
  end.

(** [data[key]] *)
Definition getitem (data : value) (key : string) : outcome value :=
  match data with
  | VDict d => match Doc.lookup key d with Some v => Ok v | None => Raise KeyError end
  | _ => Raise TypeError
  end.

(** [parse_iptm(pred_dir, conf_name)] *)
Definition parse_iptm (pred_dir : path) (conf_name : string) : io (option float) :=
  let conf_path := join pred_dir conf_name in
  do ok <- is_file conf_path;
  if negb ok then
    print "[WARN] Missing confidence JSON in {pred_dir}" [path_str pred_dir];;
    ret None
  else
    try_except
      (do content <- read conf_path;
       do data <- lift (match json_load content with Some d => Ok d | None => Raise ValueError end);
       do has_iptm <- lift (contains data "iptm");
       if has_iptm then
         do v <- lift (getitem data "iptm");
         do x <- lift (to_float v);
         ret (Some x)
       else
         do has_prot <- lift (contains data "protein_iptm");
         if has_prot then
           do v <- lift (getitem data "protein_iptm");
           do x <- lift (to_float v);
           ret (Some x)
         else
           print "[WARN] No 'iptm' or 'protein_iptm' in {conf_path}" [path_str conf_path];;
           ret None)
      (print "[WARN] Could not parse {conf_path}: {e}" [path_str conf_path];;
       ret None).

(** The identifiers of one entry: [id] might be a string or a list. *)
Definition ids_of (pid : value) : list string :=
  match pid with
  | VList l => map Doc.str l
  | VNone => []
  | _ => [Doc.str pid]
  end.

(** The loop of [parse_chain_b_sequence] over the entries. *)
Fixpoint chain_b_loop (entries : list value) : outcome (option string) :=
  match entries with
  | [] => Ok None
  | entry :: rest =>
      match Doc.get entry "protein" (VDict []) with
      | Raise e => Raise e
      | Ok protein =>
          match Doc.get protein "id" VNone with
          | Raise e => Raise e
          | Ok pid =>
              if Doc.str_in "B" (ids_of pid) then
                match Doc.get protein "sequence" VNone with
                | Raise e => Raise e
                | Ok (VStr seq) => Ok (Some seq)
                | Ok _ => chain_b_loop rest
                end
              else chain_b_loop rest
          end
      end
  end.

(** The part of [parse_chain_b_sequence] that works on the loaded
    document. *)
Definition chain_b_of_document (data : value) : outcome (option string) :=
  match Doc.get data "sequences" (VList []) with
  | Raise e => Raise e
  | Ok sequences =>
      match Doc.iter sequences with
      | Raise e => Raise e
      | Ok entries => chain_b_loop entries
      end
  end.

(** [parse_chain_b_sequence(binder_dir, yaml_name)] *)
Definition parse_chain_b_sequence (binder_dir : path) (yaml_name : string) : io (option string) :=
  let yaml_path := join binder_dir yaml_name in
  do ok <- is_file yaml_path;
  if negb ok then
    print "[WARN] input.yaml not found in {binder_dir}" [path_str binder_dir];;
    ret None
  else
    do content <- read yaml_path;
    match yaml_safe_load content with
    | None =>
        print "[WARN] Could not parse YAML {yaml_path}: {e}" [path_str yaml_path];;
        ret None
    | Some data =>
        do r <- lift (chain_b_of_document data);
        match r with
        | Some seq => ret (Some seq)
        | None =>
            print "[WARN] No chain B sequence found in {yaml_path}" [path_str yaml_path];;
            ret None
        end
    end.


(** The key of [natural_binder_sort_key]: an [int] or the name. *)
Inductive sort_key :=
| KInt (n : Z)
| KStr (s : string).

(** [a < b] on keys: an [int] and a [str] do not compare. *)
Definition key_lt (a b : sort_key) : outcome bool :=
  match a, b with
  | KInt x, KInt y => Ok (x <? y)%Z
  | KStr s, KStr t => Ok (PyStr.str_lt s t)
  | _, _ => Raise TypeError
  end.

Fixpoint take_decimals (cs : list ascii) : list ascii :=
  match cs with
  | c :: cs' => if PyStr.is_decimal c then c :: take_decimals cs' else []
  | [] => []
  end.

(** [re.search(r"(\d+)$", name)]: the longest run of digits that ends the
    name; [$] also matches in front of a line feed that ends the name. *)
Definition search_trailing_digits (name : string) : option string :=
  let r := rev (list_ascii_of_string name) in
  let r := match r with
           | c :: r' => if Ascii.eqb c "010" then r' else r
           | [] => r
           end in
  match take_decimals r with
  | [] => None
  | ds => Some (string_of_list_ascii (rev ds))
  end.

(** [natural_binder_sort_key(name)] *)
Definition natural_binder_sort_key (name : string) : sort_key :=
  match search_trailing_digits name with
  | Some ds => KInt (Z.of_N (PyStr.digits_value 0 ds))
  | None => KStr name
  end.

(** [d.name] *)
Definition name (d : path) : string := List.last d "".

Record row := Row {
  binder_id : string;
  ipSAE : float;
  ipTM : option float;
  sequence_B : option string
}.

(** The body of the loop of [collect_ipsae] for one binder directory. *)
Definition collect_step (ipsae_script : path) (threshold : float)
    (rows : list row) (binder_dir : path) : io (list row) :=
  let binder_id := name binder_dir in
  let pred_dir := join (join (join binder_dir "boltz_results_input") "predictions") "input" in
  do ok <- is_dir pred_dir;
  if negb ok then
    print "[WARN] Prediction directory missing for {binder_id}: {pred_dir}" [binder_id; path_str pred_dir];;
    ret rows
  else
    do out_txt <- run_ipsae pred_dir ipsae_script "pae_input_model_0.npz" "input_model_0.cif" 10 10;
    match out_txt with
    | None => ret rows
    | Some out_txt =>
        do ipsae_val <- parse_ipsae_max out_txt;
        match ipsae_val with
        | None => ret rows
        | Some ipsae_val =>
            do iptm_val <- parse_iptm pred_dir "confidence_input_model_0.json";
            do seq_b <- parse_chain_b_sequence binder_dir "input.yaml";
            print "[INFO] {binder_id}: ipSAE=, ipTM=, seq_B_len=" [binder_id];;
            if float_ge ipsae_val threshold
            then ret (rows ++ [Row binder_id ipsae_val iptm_val seq_b])%list
            else ret rows
        end
    end.

(** [collect_ipsae(root_dir, ipsae_script, threshold, out_csv)]: the result
    is the list of rows written, under the header, to [out_csv]. *)
Definition collect_ipsae (root_dir ipsae_script : path) (threshold : float) : io (list row) :=
  do names <- listdir root_dir;
  do binder_dirs <- for_each names [] (fun acc n =>
      let d := join root_dir n in
      do ok <- is_dir d;
      ret (if ok && PyStr.startswith n "binder_" then acc ++ [d] else acc)%list);
  do binder_dirs <- lift (PySort.sorted key_lt (fun d => Ok (natural_binder_sort_key (name d))) binder_dirs);
  print "[INFO] Found {n} binder directories under {root_dir}" [path_str root_dir];;
  do rows <- for_each binder_dirs [] (collect_step ipsae_script threshold);
  print "[INFO] Wrote {n} entries with ipSAE >= {threshold} to {out_csv}" [];;
  ret rows.

End Boltz.
End Boltz.

(** ** get_ipsae_AF3.py *)

Module AF3.
Section AF3.
Context `{External}.
Import IO.
Local Open Scope io_scope.

(** One element of the key of [natural_sort_key]. *)
Inductive chunk :=
| CInt (n : Z)
| CStr (s : string).

(** The chunk that starts the string (a run of digits or a run of other
    characters), whether it is a run of digits, and the chunks after it. *)
Fixpoint chunks (s : string) : bool * string * list string :=
  match s with
  | EmptyString => (false, EmptyString, [])
  | String c s' =>
      let '(d, h, r) := chunks s' in
      if PyStr.is_decimal c then
        if d then (true, String c h, r) else (true, String c EmptyString, h :: r)
      else
        if d then (false, String c EmptyString, h :: r) else (false, String c h, r)
  end.

(** [re.split(r"(\d+)", s)]: texts and runs of digits in turn, starting
    and ending with a text, which may be empty. *)
Definition re_split_digits (s : string) : list string :=
  let '(d, h, r) := chunks s in
  if d then EmptyString :: h :: r else h :: r.

(** [text.isdigit()] *)
Definition isdigit (text : string) : bool :=
  match text with
  | EmptyString => false
  | _ => forallb PyStr.isdigit_char (list_ascii_of_string text)
  end.

(** [int(text)]: only decimal digits convert. *)
Definition int_of (text : string) : outcome Z :=
  if forallb PyStr.is_decimal (list_ascii_of_string text)
  then Ok (Z.of_N (PyStr.digits_value 0 text))
  else Raise ValueError.

Fixpoint key_of_chunks (l : list string) : outcome (list chunk) :=
  match l with
  | [] => Ok []
  | text :: l' =>
      match (if isdigit text then
               match int_of text with Ok n => Ok (CInt n) | Raise e => Raise e end
             else Ok (CStr (PyStr.lower text))) with
      | Raise e => Raise e
      | Ok c => match key_of_chunks l' with
                | Ok r => Ok (c :: r)
                | Raise e => Raise e
                end
      end
  end.

(** [natural_sort_key(s)] *)
Definition natural_sort_key (s : string) : outcome (list chunk) :=
  key_of_chunks (re_split_digits s).

Definition chunk_eq (a b : chunk) : bool :=
  match a, b with
  | CInt x, CInt y => (x =? y)%Z
  | CStr s, CStr t => String.eqb s t
  | _, _ => false
  end.

Definition chunk_lt (a b : chunk) : outcome bool :=
  match a, b with
  | CInt x, CInt y => Ok (x <? y)%Z
  | CStr s, CStr t => Ok (PyStr.str_lt s t)
  | _, _ => Raise TypeError
  end.

(** [a < b] on lists: decided at the first position where they differ. *)
Fixpoint key_lt (a b : list chunk) : outcome bool :=
  match a, b with
  | [], [] => Ok false
  | [], _ :: _ => Ok true
  | _ :: _, [] => Ok false
  | x :: a', y :: b' => if chunk_eq x y then key_lt a' b' else chunk_lt x y
  end.

Definition txt_name : string := "t0.3_seed-1_sample-0_model_10_10.txt".
Definition json_name : string := "t0.3_seed-1_sample-0_confidences.json".
Definition cif_name : string := "t0.3_seed-1_sample-0_model.cif".

(** [run_ipsae(working_dir, ipsae_script)] *)
Definition run_ipsae (working_dir ipsae_script : path) : io unit :=
  let txt_path := join working_dir txt_name in
  do done <- exists_ txt_path;
  if done then
    print "[SKIP] {working_dir}: {txt_name} already exists." [path_str working_dir; txt_name]
  else
    let json_path := join working_dir json_name in
    let cif_path := join working_dir cif_name in
    do json_ok <- exists_ json_path;
    do cif_ok <- exists_ cif_path;
    if negb json_ok || negb cif_ok then
      print "[WARN] Missing input files in {working_dir}, skipping." [path_str working_dir]
    else
      let cmd := [sys_executable; path_str ipsae_script; json_name; cif_name; "10"; "10"] in
      print "[RUN ] {cmd}  (cwd={working_dir})" (cmd ++ [path_str working_dir])%list;;
      do status <- run cmd working_dir;
      if negb (status =? 0)%Z then
        print "[ERROR] ipsae.py failed in {working_dir}: {e}" [path_str working_dir; pretty status]
      else ret tt.

(** The [ValueError]s of [parse_ipsae_and_iptm]. *)
Inductive parse_error :=
| No_data_lines
| Required_column_missing (column : string)
| No_valid_values.

(** The first loop: the first row of type [max] whose two values parse. *)
Fixpoint max_row_loop (ipsae_idx iptm_idx type_idx : nat) (rows : list string)
  : option (float * float) :=
  match rows with
  | [] => None
  | line :: rest =>
      let cols := PyStr.split line in
      if (List.length cols <=? Nat.max (Nat.max ipsae_idx iptm_idx) type_idx)%nat
      then max_row_loop ipsae_idx iptm_idx type_idx rest
      else if String.eqb (PyStr.item cols type_idx) "max" then
        match float_of_string (PyStr.item cols ipsae_idx),
              float_of_string (PyStr.item cols iptm_idx) with
        | Some ipsae, Some iptm => Some (ipsae, iptm)
        | _, _ => max_row_loop ipsae_idx iptm_idx type_idx rest
        end
      else max_row_loop ipsae_idx iptm_idx type_idx rest
  end.

(** The second loop, from the values of [best_ipsae] and [best_iptm]. *)
Fixpoint fallback_loop (ipsae_idx iptm_idx : nat) (rows : list string)
    (best_ipsae best_iptm : option float) : option float * option float :=
  match rows with
  | [] => (best_ipsae, best_iptm)
  | line :: rest =>
      let cols := PyStr.split line in
      if (List.length cols <=? Nat.max ipsae_idx iptm_idx)%nat
      then fallback_loop ipsae_idx iptm_idx rest best_ipsae best_iptm
      else
        match float_of_string (PyStr.item cols ipsae_idx),
              float_of_string (PyStr.item cols iptm_idx) with
        | Some val_ipsae, Some val_iptm =>
            if match best_ipsae with
               | None => true
               | Some b => float_gt val_ipsae b
               end
            then fallback_loop ipsae_idx iptm_idx rest (Some val_ipsae) (Some val_iptm)
            else fallback_loop ipsae_idx iptm_idx rest best_ipsae best_iptm
        | _, _ => fallback_loop ipsae_idx iptm_idx rest best_ipsae best_iptm
        end
  end.

(** The stripped, non-empty lines of the file. *)
Definition nonempty_lines (content : string) : list string :=
  List.filter (fun ln => negb (String.eqb ln ""))
              (map PyStr.strip (PyStr.readlines content)).

(** [header.index(column)] *)
Definition column (header : list string) (col : string) : parse_error + nat :=
  match PyStr.index col header with
  | Some i => inr i
  | None => inl (Required_column_missing col)
  end.

(** [parse_ipsae_and_iptm], on the text of the file. *)
Definition parse_text (content : string) : parse_error + (float * float) :=
  let lines := nonempty_lines content in
  if (List.length lines <? 2)%nat then inl No_data_lines
  else
    let header := PyStr.split (hd "" lines) in
    match column header "ipSAE" with
    | inl e => inl e
    | inr ipsae_idx =>
    match column header "ipTM_af" with
    | inl e => inl e
    | inr iptm_idx =>
    match column header "Type" with
    | inl e => inl e
    | inr type_idx =>
        match max_row_loop ipsae_idx iptm_idx type_idx (tl lines) with
        | Some r => inr r
        | None =>
            match fallback_loop ipsae_idx iptm_idx (tl lines) None None with
            | (Some best_ipsae, Some best_iptm) => inr (best_ipsae, best_iptm)
            | _ => inl No_valid_values
            end
        end
    end end end.

(** [parse_ipsae_and_iptm(txt_path)] *)
Definition parse_ipsae_and_iptm (txt_path : path) : io (float * float) :=
  do content <- read txt_path;
  match parse_text content with
  | inr r => ret r
  | inl _ => raise ValueError
  end.

(** [s.endswith(suffix)] *)
Definition endswith (s suffix : string) : bool :=
  String.prefix (string_of_list_ascii (rev (list_ascii_of_string suffix)))
                (string_of_list_ascii (rev (list_ascii_of_string s))).

(** The inner loop of [find_chain_b_sequence] over the entries of one
    document. *)
Fixpoint chain_b_loop (entries : list value) : outcome (option string) :=
  match entries with
  | [] => Ok None
  | entry :: rest =>
      match Doc.get entry "protein" (VDict []) with
      | Raise e => Raise e
      | Ok protein =>
          match Doc.get protein "id" (VList []) with
          | Raise e => Raise e
          | Ok ids =>
              if match ids with
                 | VList l => existsb (fun v => Doc.is_str v "B") l
                 | _ => false
                 end
              then
                match Doc.get protein "sequence" VNone with
                | Raise e => Raise e
                | Ok (VStr seq) => Ok (Some seq)
                | Ok _ => chain_b_loop rest
                end
              else chain_b_loop rest
          end
      end
  end.

(** What one loaded document contributes: a sequence, or nothing when the
    loop goes on to the next file. *)
Definition chain_b_of_document (data : value) : outcome (option string) :=
  match data with
  | VDict d =>
      match Doc.lookup "sequences" d with
      | Some (VList entries) => chain_b_loop entries
      | _ => Ok None
      end
  | _ => Ok None
  end.

(** [find_chain_b_sequence(binder_path)] *)
Definition find_chain_b_sequence (binder_path : path) : io (option string) :=
  do names <- listdir binder_path;
  do json_candidates <- for_each names [] (fun acc fname =>
      do ok <- is_file (join binder_path fname);
      ret (if endswith fname ".json" && ok then acc ++ [fname] else acc)%list);
  for_each json_candidates None (fun found fname =>
    match found with
    | Some seq => ret (Some seq)
    | None =>
        do loaded <- try_except
                       (do content <- read (join binder_path fname);
                        ret (json_load content))
                       (ret None);
        match loaded with
        | None => ret None
        | Some data => lift (chain_b_of_document data)
        end
    end).

(** One element of [results]. *)
Record result := Result {
  binder : string;
  ipsae : float;
  iptm : float;
  seq_b : option string
}.

(** The threshold [0.75] of [main]. *)
Definition high_ipsae : float := float_of_decimal 75 (-2).

(** The body of the loop of [main] for one binder. *)
Definition main_step (base_dir ipsae_script : path)
    (results : list result) (binder : string) : io (list result) :=
  let binder_path := join base_dir binder in
  let work_dir := join (join binder_path "t0.3") "seed-1_sample-0" in
  do ok <- is_dir work_dir;
  if negb ok then
    print "[SKIP] {binder}: no t0.3/seed-1_sample-0 directory (not finished?)." [binder];;
    ret results
  else
    run_ipsae work_dir ipsae_script;;
    let txt_path := join work_dir txt_name in
    do present <- exists_ txt_path;
    if negb present then
      print "[WARN] {binder}: output file {txt_path} not found, skipping." [binder; path_str txt_path];;
      ret results
    else
      do parsed <- try_except
                     (do r <- parse_ipsae_and_iptm txt_path;
                      print "[OK  ] {binder}: ipSAE = , ipTM_af = " [binder];;
                      ret (Some r))
                     (print "[WARN] {binder}: failed to parse {txt_path}: {e}" [binder; path_str txt_path];;
                      ret None);
      match parsed with
      | None => ret results
      | Some (ipsae, iptm) =>
          do seq_b <-
            (if float_gt ipsae high_ipsae then
               do seq_b <- find_chain_b_sequence binder_path;
               match seq_b with
               | None =>
                   print "[NOTE] {binder}: ipSAE>0.75 but chain B sequence not found." [binder];;
                   ret None
               | Some s => ret (Some s)
               end
             else ret None);
          ret (results ++ [Result binder ipsae iptm seq_b])%list
      end.

(** The rows of [overview_ipsae.tsv]: all the results. *)
Definition overview_rows (results : list result) : list (string * float * float) :=
  map (fun r => (binder r, ipsae r, iptm r)) results.

(** The rows of [high_ipsae_sequences.tsv]. *)
Definition high_rows (results : list result) : list (string * float * float * string) :=
  map (fun r => (binder r, ipsae r, iptm r,
                 match seq_b r with Some s => s | None => "" end))
      (List.filter (fun r => float_gt (ipsae r) high_ipsae) results).

(** [main()], run in [base_dir] with the scorer at [ipsae_script]: the
    rows written to the two reports. *)
Definition main (base_dir ipsae_script : path)
  : io (list (string * float * float) * list (string * float * float * string)) :=
  do found <- exists_ ipsae_script;
  if negb found then
    print "[FATAL] Cannot find ipsae.py at {ipsae_script}" [path_str ipsae_script];;
    raise (SystemExit 1)
  else
    do names <- listdir base_dir;
    do binder_dirs <- for_each names [] (fun acc d =>
        do ok <- is_dir (join base_dir d);
        ret (if PyStr.startswith d "binder_" && ok then acc ++ [d] else acc)%list);
    do binder_dirs <- lift (PySort.sorted key_lt natural_sort_key binder_dirs);
    do results <- for_each binder_dirs [] (main_step base_dir ipsae_script);
    print "[DONE] Wrote {n} entries to {overview_path}" [path_str (join base_dir "overview_ipsae.tsv")];;
    print "[DONE] Wrote high-ipSAE binders to {high_path}" [path_str (join base_dir "high_ipsae_sequences.tsv")];;
    ret (overview_rows results, high_rows results).

End AF3.
End AF3.

(** ** AF3_AB_iptm.py *)

Module AF3AB.
Section AF3AB.
Context `{External}.






(** ["B" in ids] once a string has been wrapped into a list. *)
Definition chain_in (c : string) (ids : value) : outcome bool :=
  match ids with
  | VList l => Ok (existsb (fun v => Doc.is_str v c) l)
  | VDict d => Ok (match Doc.lookup c d with Some _ => true | None => false end)
  | _ => Raise TypeError
  end.

(** The loop of [extract_BC_sequences], from the values of [heavy] and
    [light]. *)
Fixpoint extract_loop (entries : list value) (heavy light : value) : outcome (value * value) :=
  match entries with
  | [] => Ok (heavy, light)
  | entry :: rest =>
      match Doc.get entry "protein" (VDict []) with
      | Raise e => Raise e
      | Ok prot =>
          match Doc.get prot "id" (VList []) with
          | Raise e => Raise e
          | Ok ids =>
              let ids := match ids with VStr s => VList [VStr s] | _ => ids end in
              match Doc.get prot "sequence" (VStr "") with
              | Raise e => Raise e
              | Ok seq =>
                  match chain_in "B" ids with
                  | Raise e => Raise e
                  | Ok isB =>
                      let heavy := if isB then seq else heavy in
                      match chain_in "C" ids with
                      | Raise e => Raise e
                      | Ok isC =>
                          let light := if isC then seq else light in
                          extract_loop rest heavy light
                      end
                  end
              end
          end
      end
  end.

(** [extract_BC_sequences], on the loaded document. *)
Definition extract_BC_sequences (data : value) : outcome (value * value) :=
  match Doc.get data "sequences" (VList []) with
  | Raise e => Raise e
  | Ok sequences =>
      match Doc.iter sequences with
      | Raise e => Raise e
      | Ok entries => extract_loop entries (VStr "") (VStr "")
      end
  end.

End AF3AB.
End AF3AB.

(** ** Vocabulary of the statements *)

Module Spec.
Section Spec.
Context `{PyFloat}.


(** [float(cols[i])] when the row has a column [i]. *)
Definition number_at (cols : list string) (i : nat) : option float :=
  cols !! i ≫= float_of_string.

(** AF3 table: the two values of a row of type [max], when the row has
    the three columns and both values parse. *)
Definition af3_max_values (ipsae_idx iptm_idx type_idx : nat) (line : string)
  : option (float * float) :=
  let cols := PyStr.split line in
  match cols !! type_idx, number_at cols ipsae_idx, number_at cols iptm_idx with
  | Some ty, Some v, Some w => if String.eqb ty "max" then Some (v, w) else None
  | _, _, _ => None
  end.

(** AF3 table: the two values of a row, when both are there and parse. *)
Definition af3_values (ipsae_idx iptm_idx : nat) (line : string) : option (float * float) :=
  let cols := PyStr.split line in
  match number_at cols ipsae_idx, number_at cols iptm_idx with
  | Some v, Some w => Some (v, w)
  | _, _ => None
  end.

(** Boltz table: the value at position 5 of a line that does not start
    with [Chn1] and has [max] at position 4. *)
Definition boltz_max_value (line : string) : option float :=
  let line := PyStr.strip line in
  if PyStr.startswith line "Chn1" then None
  else
    let cols := PyStr.split line in
    match cols !! 4%nat, number_at cols 5 with
    | Some ty, Some v => if String.eqb ty "max" then Some v else None
    | _, _ => None
    end.

(** On the values [vs], [>] is the strict part of a total preorder: it is
    asymmetric, and whatever is above [y] is above everything that is not
    above [y].  For IEEE numbers this holds when none of them is a NaN. *)
Definition ordered (vs : list float) : bool :=
  forallb (fun x => forallb (fun y =>
    implb (float_gt x y) (negb (float_gt y x))
    && forallb (fun z => implb (float_gt x y && negb (float_gt z y)) (float_gt x z)) vs) vs) vs.

(** The pair the second loop of the AF3 parser holds after the pairs
    [ps], from [b1] and [b2]. *)
Fixpoint best_of (ps : list (float * float)) (b1 b2 : option float)
  : option float * option float :=
  match ps with
  | [] => (b1, b2)
  | (v, w) :: ps' =>
      if match b1 with None => true | Some b => float_gt v b end
      then best_of ps' (Some v) (Some w)
      else best_of ps' b1 b2
  end.


(** The first of the columns [ipSAE], [ipTM_af], [Type] that a header
    lacks. *)
Definition first_missing (header : list string) : option string :=
  List.find (fun c => negb (existsb (String.eqb c) header)) ["ipSAE"; "ipTM_af"; "Type"].

Definition isfile (f : gmap path node) (p : path) : bool :=
  match f !! p with Some (File _) => true | _ => false end.

Definition isdir (f : gmap path node) (p : path) : bool :=
  match f !! p with Some Dir => true | _ => false end.

Definition present (f : gmap path node) (p : path) : bool :=
  match f !! p with Some _ => true | None => false end.

(** Boltz: the prediction directory of a binder, the output file of the
    scorer and the command that runs it. *)
Definition boltz_pred_dir (binder_dir : path) : path :=
  join (join (join binder_dir "boltz_results_input") "predictions") "input".

Definition boltz_out_txt (pred_dir : path) (cif_name : string) (d0_chn d0_dom : Z) : path :=
  join pred_dir (Boltz.stem cif_name ++ "_" ++ pretty d0_chn ++ "_" ++ pretty d0_dom ++ ".txt").

Definition boltz_cmd (pred_dir script : path) (pae_name cif_name : string) (d0_chn d0_dom : Z)
  : list string :=
  ["python"; path_str script; path_str (join pred_dir pae_name);
   path_str (join pred_dir cif_name); pretty d0_chn; pretty d0_dom].

(** AF3: the working directory of a binder. *)
Definition af3_work_dir (base_dir : path) (binder : string) : path :=
  join (join (join base_dir binder) "t0.3") "seed-1_sample-0".

(** Boltz: the integer that ends a name ([0] when there is none). *)
Definition trailing_int (name : string) : Z :=
  match Boltz.search_trailing_digits name with
  | Some ds => Z.of_N (PyStr.digits_value 0 ds)
  | None => 0
  end.

(** Boltz: the key by which [collect_ipsae] sorts the directories. *)
Definition boltz_key (d : path) : outcome Boltz.sort_key :=
  Ok (Boltz.natural_binder_sort_key (Boltz.name d)).

(** Two neighbours of a sorted list are in order: the first is below the
    second, or the second is not below the first. *)
Definition in_order {K A : Type} (lt : K -> K -> outcome bool) (a b : K * A) : Prop :=
  lt (fst a) (fst b) = Ok true \/ lt (fst b) (fst a) = Ok false.

(** Every character of [s] satisfies [P]. *)
Fixpoint all_chars (P : ascii -> bool) (s : string) : bool :=
  match s with
  | EmptyString => true
  | String c s' => P c && all_chars P s'
  end.

(** A name is plain when it has no character that [isdigit] accepts and
    [int] rejects (the superscripts 178, 179 and 185). *)
Definition plain_char (c : ascii) : bool :=
  PyStr.is_decimal c || negb (PyStr.isdigit_char c).

Definition plain (s : string) : bool := all_chars plain_char s.

(** Runs of digits and texts in turn. *)
Fixpoint shape (digits_first : bool) (l : list string) : Prop :=
  match l with
  | [] => True
  | h :: r =>
      (if digits_first
       then h <> "" /\ all_chars PyStr.is_decimal h = true
       else all_chars (fun c => negb (PyStr.is_decimal c)) h = true)
      /\ plain h = true /\ shape (negb digits_first) r
  end.

(** The kinds of the elements of a key alternate. *)
Fixpoint alternates (text_first : bool) (k : list AF3.chunk) : Prop :=
  match k with
  | [] => True
  | AF3.CStr _ :: k' => text_first = true /\ alternates false k'
  | AF3.CInt _ :: k' => text_first = false /\ alternates true k'
  end.

(** The key of a plain name ([[]] stands for the key that raises). *)
Definition af3_key (name : string) : list AF3.chunk :=
  match AF3.natural_sort_key name with
  | Ok k => k
  | Raise _ => []
  end.

End Spec.

Section Documents.
Context `{External}.

(** AF3: the command that runs the scorer. *)
Definition af3_cmd (script : path) : list string :=
  [sys_executable; path_str script; AF3.json_name; AF3.cif_name; "10"; "10"].

(** Rewrite every identifier written as a bare string into the list that
    holds that string, in every entry of a sequence-definition document. *)
Definition listify_id (kv : string * value) : string * value :=
  match kv with
  | (k, VStr s) => if String.eqb k "id" then (k, VList [VStr s]) else kv
  | _ => kv
  end.

Definition listify_protein (kv : string * value) : string * value :=
  match kv with
  | (k, VDict d) => if String.eqb k "protein" then (k, VDict (map listify_id d)) else kv
  | _ => kv
  end.

Definition listify_entry (v : value) : value :=
  match v with
  | VDict d => VDict (map listify_protein d)
  | _ => v
  end.

Definition listify_sequences (kv : string * value) : string * value :=
  match kv with
  | (k, VList l) => if String.eqb k "sequences" then (k, VList (map listify_entry l)) else kv
  | _ => kv
  end.

Definition listify (doc : value) : value :=
  match doc with
  | VDict d => VDict (map listify_sequences d)
  | _ => doc
  end.

(** What the rewriting does to the value bound to a key. *)
Definition wrap_id (k : string) (v : value) : value :=
  match v with
  | VStr s => if String.eqb k "id" then VList [VStr s] else v
  | _ => v
  end.

Definition wrap_protein (k : string) (v : value) : value :=
  match v with
  | VDict d => if String.eqb k "protein" then VDict (map listify_id d) else v
  | _ => v
  end.

Definition wrap_sequences (k : string) (v : value) : value :=
  match v with
  | VList l => if String.eqb k "sequences" then VList (map listify_entry l) else v
  | _ => v
  end.

End Documents.
End Spec.

(** ** Concrete inputs *)

Module Ex.
Import Spec.

Definition nl : string := String "010"%char EmptyString.

(** A text file with the given lines. *)
Definition text (lines : list string) : string := String.concat nl lines.

(** The entries of a directory, in the order of the map. *)
Definition listing (f : gmap path node) (p : path) : list string :=
  omap (fun qn : path * node =>
          if bool_decide (removelast (fst qn) = p /\ fst qn <> [])
          then Some (List.last (fst qn) "") else None)
       (map_to_list f).

(** An environment on binary64 around a given scorer; no document loads. *)
Definition env (scorer : list string -> path -> gmap path node -> Z * gmap path node)
  : @External binary64 := {|
  subprocess_run := scorer;
  json_load := fun _ => None;
  yaml_safe_load := fun _ => None;
  os_listdir := listing;
  sys_executable := "/usr/bin/python3";
  py_repr := fun _ => "[...]"
|}.

(** A scorer that fails, one that exits with status zero and writes
    nothing, and one that writes its table. *)
Definition failing : list string -> path -> gmap path node -> Z * gmap path node :=
  fun _ _ f => (1%Z, f).

Definition silent : list string -> path -> gmap path node -> Z * gmap path node :=
  fun _ _ f => (0%Z, f).

Definition writing (out content : string)
  : list string -> path -> gmap path node -> Z * gmap path node :=
  fun _ cwd f => (0%Z, <[join cwd out := File content]> f).


Definition af3_plain_table : string :=
  text ["Type ipTM_af ipSAE"; "asym 0.8 0.5"; "asym 0.1 0.9"; "asym 0.7 0.9"; "asym x 1.0"].

Definition af3_untyped_table : string :=
  text ["ipSAE ipTM_af"; "0.5 0.8"].

(** Boltz tables. *)
Definition boltz_header : string := "Chn1 Chn2 PAE Dist Type ipSAE".


Definition boltz_plain_lines : list string :=
  [boltz_header; "A B 10 10 asym 0.9"].


Definition boltz_table (v : string) : string :=
  text [boltz_header; "A B 10 10 asym 0.1"; "A B 10 10 max " ++ v].

Definition af3_table (v : string) : string :=
  text ["Chn1 Chn2 Type ipSAE ipTM_af"; "A B asym 0.1 0.2"; "A B max " ++ v ++ " 0.6"].

(** A Boltz run directory with three scored binders. *)
Definition boltz_binder (b v : string) : list (path * node) :=
  let pred_dir := boltz_pred_dir ["run"; b] in
  [ (["run"; b], Dir);
    (pred_dir, Dir);
    (join pred_dir "pae_input_model_0.npz", File "");
    (join pred_dir "input_model_0.cif", File "");
    (join pred_dir "input_model_0_10_10.txt", File (boltz_table v)) ].

Definition boltz_world : world :=
  World (list_to_map ((["run"], Dir) :: boltz_binder "binder_1" "0.5"
                      ++ boltz_binder "binder_2" "0.7" ++ boltz_binder "binder_3" "0.7")%list)
        [] [].

(** An AF3 run directory with three scored binders. *)
Definition af3_binder (b v : string) : list (path * node) :=
  let work_dir := af3_work_dir ["run"] b in
  [ (["run"; b], Dir);
    (["run"; b; "t0.3"], Dir);
    (work_dir, Dir);
    (join work_dir AF3.txt_name, File (af3_table v)) ].

Definition af3_world (v1 v2 v3 : string) : world :=
  World (list_to_map ((["run"], Dir) :: (["opt"; "ipsae.py"], File "")
                      :: af3_binder "binder_1" v1
                      ++ af3_binder "binder_2" v2 ++ af3_binder "binder_3" v3)%list)
        [] [].

Definition script : path := ["opt"; "ipsae.py"].
Definition pred_dir : path := boltz_pred_dir ["run"; "binder_3"].
Definition work_dir : path := af3_work_dir ["run"] "binder_3".

(** A prediction directory that holds the output of the scorer and not
    its inputs. *)
Definition boltz_output_only : world :=
  World (list_to_map [(pred_dir, Dir);
                      (join pred_dir "input_model_0_10_10.txt", File (boltz_table "0.9"))])
        [] [].

(** A prediction directory that is ready to be scored. *)
Definition boltz_ready : world :=
  World (list_to_map [(pred_dir, Dir);
                      (join pred_dir "pae_input_model_0.npz", File "");
                      (join pred_dir "input_model_0.cif", File "")])
        [] [].

(** An AF3 working directory that is ready to be scored. *)
Definition af3_ready : world :=
  World (list_to_map [(work_dir, Dir);
                      (join work_dir AF3.json_name, File "");
                      (join work_dir AF3.cif_name, File "")])
        [] [].

(** Sequence definitions: chain B as a bare string and as a list. *)
Definition entry (id : @value binary64) (seq : string) : @value binary64 :=
  VDict [("protein", VDict [("id", id); ("sequence", VStr seq)])].

Definition doc_scalar : @value binary64 :=
  VDict [("sequences", VList [entry (VStr "A") "MKV"; entry (VStr "B") "GSH"])].

Definition doc_list : @value binary64 :=
  VDict [("sequences", VList [entry (VList [VStr "A"]) "MKV"; entry (VList [VStr "B"]) "GSH"])].


(** What a run of [collect_ipsae] reports: the identifier and the [ipSAE]
    of each row, or nothing when the run raises. *)
Definition report (r : outcome (list (@Boltz.row binary64)) * world)
  : option (list (string * spec_float)) :=
  match fst r with
  | Ok rows => Some (map (fun row => (Boltz.binder_id row, Boltz.ipSAE row)) rows)
  | Raise _ => None
  end.

(** Binary64 numbers written as in the tables. *)
Definition num (s : string) : spec_float :=
  match Binary64.of_string s with
  | Some x => x
  | None => S754_nan
  end.

End Ex.

Local Open Scope list_scope.
Import Spec.

(** * Properties *)

(** ** Score tables *)

Section Tables.
Context `{PyFloat}.

Lemma number_at_item (cols : list string) (i : nat) :
  (i < List.length cols)%nat -> number_at cols i = float_of_string (PyStr.item cols i).
Proof.
  intros Hi. unfold number_at, PyStr.item.
  destruct (lookup_lt_is_Some_2 cols i Hi) as [x Hx].
  rewrite Hx, (nth_lookup_Some _ _ _ _ Hx). reflexivity.
Qed.

Lemma number_at_short (cols : list string) (i : nat) :
  (List.length cols <= i)%nat -> number_at cols i = None.
Proof. intros Hi. unfold number_at. now rewrite (lookup_ge_None_2 cols i Hi). Qed.

(** One turn of the first loop of the AF3 parser. *)
Lemma max_row_loop_cons i j t line rest :
  AF3.max_row_loop i j t (line :: rest) =
  match af3_max_values i j t line with
  | Some vw => Some vw
  | None => AF3.max_row_loop i j t rest
  end.
Proof.
  simpl. unfold af3_max_values.
  destruct (Nat.leb_spec (List.length (PyStr.split line)) (Nat.max (Nat.max i j) t)) as [Hle|Hlt].
  - destruct (Nat.le_gt_cases (List.length (PyStr.split line)) t) as [Ht|Ht].
    { now rewrite (lookup_ge_None_2 _ _ Ht). }
    destruct (PyStr.split line !! t); [|reflexivity].
    destruct (Nat.le_gt_cases (List.length (PyStr.split line)) i) as [Hi|Hi].
    { now rewrite (number_at_short _ _ Hi). }
    destruct (number_at (PyStr.split line) i); [|reflexivity].
    rewrite number_at_short by lia. reflexivity.
  - rewrite !number_at_item by lia.
    destruct (lookup_lt_is_Some_2 (PyStr.split line) t ltac:(lia)) as [ty Hty].
    unfold PyStr.item at 1. rewrite Hty, (nth_lookup_Some _ _ _ _ Hty).
    destruct (String.eqb ty "max");
      destruct (float_of_string (PyStr.item (PyStr.split line) i));
      destruct (float_of_string (PyStr.item (PyStr.split line) j)); reflexivity.
Qed.


Lemma max_row_loop_none i j t rows :
  Forall (fun l => af3_max_values i j t l = None) rows ->
  AF3.max_row_loop i j t rows = None.
Proof.
  induction 1 as [|l rows Hl _ IH]; [reflexivity|].
  now rewrite max_row_loop_cons, Hl.
Qed.


(** One turn of the second loop of the AF3 parser. *)
Lemma fallback_loop_cons i j line rest b1 b2 :
  AF3.fallback_loop i j (line :: rest) b1 b2 =
  match af3_values i j line with
  | Some (v, w) =>
      if match b1 with None => true | Some b => float_gt v b end
      then AF3.fallback_loop i j rest (Some v) (Some w)
      else AF3.fallback_loop i j rest b1 b2
  | None => AF3.fallback_loop i j rest b1 b2
  end.
Proof.
  simpl. unfold af3_values.
  destruct (Nat.leb_spec (List.length (PyStr.split line)) (Nat.max i j)) as [Hle|Hlt].
  - destruct (Nat.le_gt_cases (List.length (PyStr.split line)) i) as [Hi|Hi].
    { now rewrite (number_at_short _ _ Hi). }
    destruct (number_at (PyStr.split line) i); [|reflexivity].
    rewrite number_at_short by lia. reflexivity.
  - rewrite !number_at_item by lia.
    destruct (float_of_string (PyStr.item (PyStr.split line) i));
      destruct (float_of_string (PyStr.item (PyStr.split line) j)); reflexivity.
Qed.

(** The second loop only sees the rows whose two values parse. *)
Lemma fallback_loop_pairs i j rows b1 b2 :
  AF3.fallback_loop i j rows b1 b2 = best_of (omap (af3_values i j) rows) b1 b2.
Proof.
  revert b1 b2. induction rows as [|line rows IH]; intros b1 b2; [reflexivity|].
  rewrite fallback_loop_cons. cbn [omap list_omap].
  destruct (af3_values i j line) as [[v w]|]; cbn [best_of]; [|apply IH].
  destruct (match b1 with None => true | Some b => float_gt v b end); apply IH.
Qed.

Lemma ordered_spec (vs : list float) :
  ordered vs = true ->
  (forall x y, In x vs -> In y vs -> float_gt x y = true -> float_gt y x = false) /\
  (forall x y z, In x vs -> In y vs -> In z vs ->
     float_gt x y = true -> float_gt z y = false -> float_gt x z = true).
Proof.
  unfold ordered. intros Ho. rewrite forallb_forall in Ho. split.
  - intros x y Hx Hy Hxy. specialize (Ho x Hx). rewrite forallb_forall in Ho.
    specialize (Ho y Hy). apply andb_prop in Ho as [Ha _].
    rewrite Hxy in Ha. simpl in Ha. now apply negb_true_iff in Ha.
  - intros x y z Hx Hy Hz Hxy Hzy. specialize (Ho x Hx). rewrite forallb_forall in Ho.
    specialize (Ho y Hy). apply andb_prop in Ho as [_ Hw].
    rewrite forallb_forall in Hw. specialize (Hw z Hz).
    rewrite Hxy, Hzy in Hw. exact Hw.
Qed.

(** Invariant of the second loop: the pair it holds is above every pair
    before it and no pair seen after it is above it. *)
Lemma best_of_from ps : forall pre b bw mid,
  ordered (map fst (pre ++ (b, bw) :: mid ++ ps)) = true ->
  (forall p, In p pre -> float_gt b (fst p) = true) ->
  (forall p, In p mid -> float_gt (fst p) b = false) ->
  exists pre' v w post',
    pre ++ (b, bw) :: mid ++ ps = pre' ++ (v, w) :: post' /\
    best_of ps (Some b) (Some bw) = (Some v, Some w) /\
    (forall p, In p pre' -> float_gt v (fst p) = true) /\
    (forall p, In p post' -> float_gt (fst p) v = false).
Proof.
  induction ps as [|[x y] ps IH]; intros pre b bw mid Ho Hpre Hmid.
  - exists pre, b, bw, mid. rewrite app_nil_r. repeat split; auto.
  - cbn [best_of]. destruct (ordered_spec _ Ho) as [Hasym Hweak].
    assert (Hin : forall p, In p (pre ++ (b, bw) :: mid ++ (x, y) :: ps) ->
                  In (fst p) (map fst (pre ++ (b, bw) :: mid ++ (x, y) :: ps)))
      by (intros p; apply in_map).
    assert (Hb : In (b, bw) (pre ++ (b, bw) :: mid ++ (x, y) :: ps))
      by (apply in_or_app; right; now left).
    assert (Hx : In (x, y) (pre ++ (b, bw) :: mid ++ (x, y) :: ps))
      by (apply in_or_app; right; right; apply in_or_app; right; now left).
    destruct (float_gt x b) eqn:Hxb.
    + destruct (IH (pre ++ (b, bw) :: mid) x y []) as (pre' & v & w & post' & He & Hbest & H1 & H2).
      * simpl. rewrite <- app_assoc. simpl. exact Ho.
      * intros p Hp. apply in_app_or in Hp as [Hp|[<-|Hp]].
        -- apply (Hweak x b (fst p)); [apply (Hin _ Hx) | apply (Hin _ Hb) | | exact Hxb |].
           ++ apply Hin. apply in_or_app. now left.
           ++ apply (Hasym b (fst p)); [apply (Hin _ Hb) | | now apply Hpre].
              apply Hin. apply in_or_app. now left.
        -- exact Hxb.
        -- apply (Hweak x b (fst p)); [apply (Hin _ Hx) | apply (Hin _ Hb) | | exact Hxb | now apply Hmid].
           apply Hin. apply in_or_app. right. right. apply in_or_app. now left.
      * intros p [].
      * exists pre', v, w, post'. repeat split; auto.
        rewrite <- He. simpl. rewrite <- app_assoc. reflexivity.
    + destruct (IH pre b bw (mid ++ [(x, y)])) as (pre' & v & w & post' & He & Hbest & H1 & H2).
      * rewrite <- app_assoc. exact Ho.
      * exact Hpre.
      * intros p Hp. apply in_app_or in Hp as [Hp|[<-|[]]]; [now apply Hmid | exact Hxb].
      * exists pre', v, w, post'. repeat split; auto.
        rewrite <- He, <- app_assoc. reflexivity.
Qed.

Lemma best_of_first_maximum p ps :
  ordered (map fst (p :: ps)) = true ->
  exists pre v w post,
    p :: ps = pre ++ (v, w) :: post /\
    best_of (p :: ps) None None = (Some v, Some w) /\
    (forall q, In q pre -> float_gt v (fst q) = true) /\
    (forall q, In q post -> float_gt (fst q) v = false).
Proof.
  destruct p as [b bw]. intros Ho. cbn [best_of].
  apply (best_of_from ps [] b bw []); [exact Ho | intros q [] | intros q []].
Qed.






Lemma index_absent x l :
  existsb (String.eqb x) l = false -> PyStr.index x l = None.
Proof.
  induction l as [|y l IH]; simpl; [reflexivity|].
  rewrite (String.eqb_sym x y). destruct (String.eqb y x); [discriminate|].
  simpl. intros Hl. now rewrite IH.
Qed.

Lemma index_present x l :
  existsb (String.eqb x) l = true -> exists i, PyStr.index x l = Some i.
Proof.
  induction l as [|y l IH]; simpl; [discriminate|].
  rewrite (String.eqb_sym x y). destruct (String.eqb y x); [eauto|].
  simpl. intros Hl. destruct (IH Hl) as [i ->]. simpl. eauto.
Qed.

(** The AF3 parser on a file with a header and at least one more line. *)
Lemma parse_text_rows content hdr rows i j t :
  AF3.nonempty_lines content = hdr :: rows -> rows <> [] ->
  PyStr.index "ipSAE" (PyStr.split hdr) = Some i ->
  PyStr.index "ipTM_af" (PyStr.split hdr) = Some j ->
  PyStr.index "Type" (PyStr.split hdr) = Some t ->
  AF3.parse_text content =
  match AF3.max_row_loop i j t rows with
  | Some r => inr r
  | None =>
      match AF3.fallback_loop i j rows None None with
      | (Some a, Some b) => inr (a, b)
      | _ => inl AF3.No_valid_values
      end
  end.
Proof.
  intros Hl Hne Hi Hj Ht. unfold AF3.parse_text. rewrite Hl.
  destruct rows as [|r rows]; [congruence|].
  cbn [List.length Nat.ltb Nat.leb hd tl]. unfold AF3.column. rewrite Hi, Hj, Ht. reflexivity.
Qed.

Lemma parse_text_missing content c :
  (2 <= List.length (AF3.nonempty_lines content))%nat ->
  first_missing (PyStr.split (hd "" (AF3.nonempty_lines content))) = Some c ->
  AF3.parse_text content = inl (AF3.Required_column_missing c).
Proof.
  intros Hlen Hmiss. unfold AF3.parse_text.
  destruct (Nat.ltb_spec (List.length (AF3.nonempty_lines content)) 2) as [Hlt|_]; [lia|].
  unfold first_missing in Hmiss. cbn [List.find] in Hmiss. unfold AF3.column.
  set (header := PyStr.split (hd "" (AF3.nonempty_lines content))) in *.
  destruct (existsb (String.eqb "ipSAE") header) eqn:H1; cbn [negb] in Hmiss.
  2: { injection Hmiss as <-. now rewrite (index_absent _ _ H1). }
  destruct (index_present _ _ H1) as [i ->].
  destruct (existsb (String.eqb "ipTM_af") header) eqn:H2; cbn [negb] in Hmiss.
  2: { injection Hmiss as <-. now rewrite (index_absent _ _ H2). }
  destruct (index_present _ _ H2) as [j ->].
  destruct (existsb (String.eqb "Type") header) eqn:H3; cbn [negb] in Hmiss; [discriminate|].
  injection Hmiss as <-. now rewrite (index_absent _ _ H3).
Qed.


(** One turn of the loop of the Boltz parser. *)
Lemma parse_ipsae_max_lines_cons line rest :
  Boltz.parse_ipsae_max_lines (line :: rest) =
  match boltz_max_value line with
  | Some v => Some v
  | None => Boltz.parse_ipsae_max_lines rest
  end.
Proof.
  simpl. unfold boltz_max_value.
  destruct (String.eqb_spec (PyStr.strip line) "") as [He|Hne].
  - rewrite He. reflexivity.
  - simpl orb. destruct (PyStr.startswith (PyStr.strip line) "Chn1"); [reflexivity|].
    destruct (Nat.ltb_spec (List.length (PyStr.split (PyStr.strip line))) 6) as [Hlt|Hge].
    + rewrite number_at_short by lia.
      destruct (PyStr.split (PyStr.strip line) !! 4%nat); reflexivity.
    + rewrite number_at_item by lia.
      destruct (lookup_lt_is_Some_2 (PyStr.split (PyStr.strip line)) 4 ltac:(lia)) as [ty Hty].
      unfold PyStr.item at 1. rewrite Hty, (nth_lookup_Some _ _ _ _ Hty).
      destruct (String.eqb ty "max");
        destruct (float_of_string (PyStr.item (PyStr.split (PyStr.strip line)) 5)); reflexivity.
Qed.


Lemma parse_ipsae_max_lines_none lines :
  Forall (fun l => boltz_max_value l = None) lines ->
  Boltz.parse_ipsae_max_lines lines = None.
Proof.
  induction 1 as [|l lines Hl _ IH]; [reflexivity|].
  now rewrite parse_ipsae_max_lines_cons, Hl.
Qed.



End Tables.




(** C2, as the code has it.  AF3 parser, on a file whose header names the
    three columns and in which no row of type [max] has two values that
    parse: when no row has two values that parse the result is the error
    [No_valid_values]; otherwise the result is the pair of values of one of
    these rows, and no such row has an [ipSAE] above the one returned
    (the values being ordered, that is, without NaN).  When the header has
    no [Type] column the AF3 parser fails with the error that names it.
    The Boltz parser has no second pass: without a line of type [max]
    whose value parses it returns nothing. *)
Theorem fallback_maximum_as_coded `{PyFloat} :
  (forall content hdr rows i j t,
     AF3.nonempty_lines content = hdr :: rows -> rows <> [] ->
     PyStr.index "ipSAE" (PyStr.split hdr) = Some i ->
     PyStr.index "ipTM_af" (PyStr.split hdr) = Some j ->
     PyStr.index "Type" (PyStr.split hdr) = Some t ->
     Forall (fun l => af3_max_values i j t l = None) rows ->
     ordered (map fst (omap (af3_values i j) rows)) = true ->
     match omap (af3_values i j) rows with
     | [] => AF3.parse_text content = inl AF3.No_valid_values
     | ps => exists v w,
               AF3.parse_text content = inr (v, w) /\ In (v, w) ps /\
               forall q, In q ps -> float_gt (fst q) v = false
     end)
  /\ (forall content,
        (2 <= List.length (AF3.nonempty_lines content))%nat ->
        first_missing (PyStr.split (hd "" (AF3.nonempty_lines content))) = Some "Type" ->
        AF3.parse_text content = inl (AF3.Required_column_missing "Type"))
  /\ (forall lines,
        Forall (fun l => boltz_max_value l = None) lines ->
        Boltz.parse_ipsae_max_lines lines = None).
Proof.
  split; [|split].
  - intros content hdr rows i j t Hl Hne Hi Hj Ht Hmax Hord.
    rewrite (parse_text_rows _ _ _ _ _ _ Hl Hne Hi Hj Ht), (max_row_loop_none _ _ _ _ Hmax).
    rewrite fallback_loop_pairs.
    destruct (omap (af3_values i j) rows) as [|p ps] eqn:Hps; [reflexivity|].
    destruct (best_of_first_maximum p ps Hord) as (pre & v & w & post & He & Hbest & Hpre & Hpost).
    rewrite Hbest. exists v, w. split; [reflexivity|].
    destruct (ordered_spec _ Hord) as [Hasym _].
    assert (Hvin : In (v, w) (p :: ps)) by (rewrite He; apply in_or_app; right; now left).
    split; [exact Hvin|]. intros q Hq. rewrite He in Hq.
    apply in_app_or in Hq as [Hq|[<-|Hq]].
    + apply Hasym; [apply (in_map fst _ _ Hvin) | | now apply Hpre].
      apply (in_map fst). rewrite He. apply in_or_app. now left.
    + simpl. destruct (float_gt v v) eqn:Hvv; [|reflexivity].
      rewrite <- Hvv. apply Hasym; auto; apply (in_map fst _ _ Hvin).
    + now apply Hpost.
  - intros content. apply parse_text_missing.
  - apply parse_ipsae_max_lines_none.
Qed.

(** C2, witness: the table [Ex.af3_plain_table], whose last row has an
    [ipTM_af] that does not parse, and a Boltz table without a [max] line. *)
Lemma fallback_maximum_as_coded_witness :
  (exists v w,
     AF3.parse_text Ex.af3_plain_table = inr (v, w) /\
     In (v, w) [(Ex.num "0.5", Ex.num "0.8"); (Ex.num "0.9", Ex.num "0.1");
                (Ex.num "0.9", Ex.num "0.7")] /\
     forall q, In q [(Ex.num "0.5", Ex.num "0.8"); (Ex.num "0.9", Ex.num "0.1");
                     (Ex.num "0.9", Ex.num "0.7")] ->
               float_gt (fst q) v = false)
  /\ Boltz.parse_ipsae_max_lines Ex.boltz_plain_lines = None.
Proof.
  destruct (@fallback_maximum_as_coded binary64) as (Hfall & _ & Hboltz).
  split.
  - apply (Hfall Ex.af3_plain_table "Type ipTM_af ipSAE"
             ["asym 0.8 0.5"; "asym 0.1 0.9"; "asym 0.7 0.9"; "asym x 1.0"] 2%nat 1%nat 0%nat);
      try reflexivity; [discriminate|].
    repeat constructor.
  - apply Hboltz. repeat constructor.
Defined.

(** C2, counterexample: a Boltz table without a [max] line, whose only
    row holds 0.9, yields nothing; an AF3 table without a [Type] column
    yields an error although its row holds 0.5. *)
Lemma no_fallback_without_max_row :
  Forall (fun l => boltz_max_value l = None) Ex.boltz_plain_lines
  /\ number_at (PyStr.split (nth 1 Ex.boltz_plain_lines "")) 5 = Some (Ex.num "0.9")
  /\ Boltz.parse_ipsae_max_lines Ex.boltz_plain_lines = None
  /\ AF3.parse_text Ex.af3_untyped_table = inl (AF3.Required_column_missing "Type").
Proof. repeat split; try reflexivity. repeat constructor. Qed.



(** C10.  In the second pass of the AF3 parser the two values returned are
    those of one row: the first of the rows whose two values parse whose
    [ipSAE] none of these rows exceeds; the rows before it have a smaller
    [ipSAE].  A row with a value that does not parse changes nothing.  The
    values are taken to be ordered, that is, without NaN. *)
Theorem fallback_iptm_of_first_best_row `{PyFloat} :
  (forall content hdr rows i j t p ps,
     AF3.nonempty_lines content = hdr :: rows ->
     PyStr.index "ipSAE" (PyStr.split hdr) = Some i ->
     PyStr.index "ipTM_af" (PyStr.split hdr) = Some j ->
     PyStr.index "Type" (PyStr.split hdr) = Some t ->
     Forall (fun l => af3_max_values i j t l = None) rows ->
     omap (af3_values i j) rows = p :: ps ->
     ordered (map fst (p :: ps)) = true ->
     exists pre v w post,
       p :: ps = pre ++ (v, w) :: post /\
       AF3.parse_text content = inr (v, w) /\
       (forall q, In q pre -> float_gt v (fst q) = true) /\
       (forall q, In q post -> float_gt (fst q) v = false))
  /\ (forall i j pre l post b1 b2,
        af3_values i j l = None ->
        AF3.fallback_loop i j (pre ++ l :: post) b1 b2 = AF3.fallback_loop i j (pre ++ post) b1 b2).
Proof.
  split.
  - intros content hdr rows i j t p ps Hl Hi Hj Ht Hmax Hps Hord.
    assert (Hne : rows <> []) by (intros ->; discriminate).
    rewrite (parse_text_rows _ _ _ _ _ _ Hl Hne Hi Hj Ht), (max_row_loop_none _ _ _ _ Hmax).
    rewrite fallback_loop_pairs, Hps.
    destruct (best_of_first_maximum p ps Hord) as (pre & v & w & post & He & Hbest & Hpre & Hpost).
    rewrite Hbest. exists pre, v, w, post. auto.
  - intros i j pre l post b1 b2 Hl.
    rewrite !fallback_loop_pairs, !omap_app. cbn [omap list_omap]. now rewrite Hl.
Qed.

(** C10, witness: the rows hold (0.5, 0.8), (0.9, 0.1), (0.9, 0.7) and a
    row whose [ipTM_af] does not parse; the result is (0.9, 0.1), the first
    of the two rows at 0.9, although 0.8 and 0.7 are larger [ipTM_af]. *)
Lemma fallback_iptm_of_first_best_row_witness :
  exists pre v w post,
    [(Ex.num "0.5", Ex.num "0.8"); (Ex.num "0.9", Ex.num "0.1"); (Ex.num "0.9", Ex.num "0.7")]
    = pre ++ (v, w) :: post /\
    AF3.parse_text Ex.af3_plain_table = inr (v, w) /\
    (forall q, In q pre -> float_gt v (fst q) = true) /\
    (forall q, In q post -> float_gt (fst q) v = false).
Proof.
  apply (proj1 (@fallback_iptm_of_first_best_row binary64) Ex.af3_plain_table "Type ipTM_af ipSAE"
           ["asym 0.8 0.5"; "asym 0.1 0.9"; "asym 0.7 0.9"; "asym x 1.0"] 2%nat 1%nat 0%nat);
    try reflexivity.
  repeat constructor.
Defined.

(** ** Chain identifiers *)

Section Chains.
Context `{External}.

Lemma lookup_map_values (f : string * value -> string * value) (g : string -> value -> value) k d :
  (forall k v, f (k, v) = (k, g k v)) ->
  Doc.lookup k (map f d) = g k <$> Doc.lookup k d.
Proof.
  intros Hf. induction d as [|[k' v] d IH]; [reflexivity|].
  simpl. rewrite Hf. simpl. destruct (String.eqb_spec k' k) as [->|Hne]; [reflexivity | exact IH].
Qed.

Lemma listify_id_wrap k v : listify_id (k, v) = (k, wrap_id k v).
Proof. unfold listify_id, wrap_id. destruct v; try reflexivity. now destruct (String.eqb k "id"). Qed.

Lemma listify_protein_wrap k v : listify_protein (k, v) = (k, wrap_protein k v).
Proof. unfold listify_protein, wrap_protein. destruct v; try reflexivity. now destruct (String.eqb k "protein"). Qed.

Lemma listify_sequences_wrap k v : listify_sequences (k, v) = (k, wrap_sequences k v).
Proof. unfold listify_sequences, wrap_sequences. destruct v; try reflexivity. now destruct (String.eqb k "sequences"). Qed.

Lemma boltz_ids_wrap pid : Boltz.ids_of (wrap_id "id" pid) = Boltz.ids_of pid.
Proof. destruct pid; reflexivity. Qed.

Lemma boltz_entry_listify entry rest :
  Boltz.chain_b_loop (map listify_entry rest) = Boltz.chain_b_loop rest ->
  Boltz.chain_b_loop (map listify_entry (entry :: rest)) = Boltz.chain_b_loop (entry :: rest).
Proof.
  intros IH. cbn [map Boltz.chain_b_loop]. rewrite IH.
  destruct entry as [| | | | |l|d]; try reflexivity.
  cbn [listify_entry Doc.get].
  rewrite (lookup_map_values _ _ _ _ listify_protein_wrap).
  destruct (Doc.lookup "protein" d) as [protein|]; cbn [fmap option_fmap option_map]; [|reflexivity].
  destruct protein as [| | | | |l|pd]; try reflexivity.
  cbn [wrap_protein String.eqb Ascii.eqb Bool.eqb Doc.get].
  rewrite !(lookup_map_values _ _ _ _ listify_id_wrap).
  destruct (Doc.lookup "id" pd) as [pid|]; cbn [fmap option_fmap option_map].
  - rewrite boltz_ids_wrap.
    destruct (Doc.str_in "B" (Boltz.ids_of pid)); [|reflexivity].
    destruct (Doc.lookup "sequence" pd) as [seq|]; cbn [fmap option_fmap option_map]; [|reflexivity].
    destruct seq; reflexivity.
  - destruct (Doc.str_in "B" (Boltz.ids_of VNone)); [|reflexivity].
    destruct (Doc.lookup "sequence" pd) as [seq|]; cbn [fmap option_fmap option_map]; [|reflexivity].
    destruct seq; reflexivity.
Qed.

Lemma boltz_loop_listify entries :
  Boltz.chain_b_loop (map listify_entry entries) = Boltz.chain_b_loop entries.
Proof.
  induction entries as [|entry rest IH]; [reflexivity|]. now apply boltz_entry_listify.
Qed.

Lemma boltz_document_listify doc :
  Boltz.chain_b_of_document (listify doc) = Boltz.chain_b_of_document doc.
Proof.
  destruct doc as [| | | | |l|d]; try reflexivity.
  unfold Boltz.chain_b_of_document. cbn [listify Doc.get].
  rewrite (lookup_map_values _ _ _ _ listify_sequences_wrap).
  destruct (Doc.lookup "sequences" d) as [sequences|]; cbn [fmap option_fmap option_map]; [|reflexivity].
  destruct sequences as [| | | | |l|d']; try reflexivity.
  cbn [wrap_sequences String.eqb Ascii.eqb Bool.eqb Doc.iter]. apply boltz_loop_listify.
Qed.

Lemma af3ab_loop_listify entries : forall heavy light,
  AF3AB.extract_loop (map listify_entry entries) heavy light = AF3AB.extract_loop entries heavy light.
Proof.
  induction entries as [|entry rest IH]; intros heavy light; [reflexivity|].
  cbn [map AF3AB.extract_loop].
  destruct entry as [| | | | |l|d]; try reflexivity.
  cbn [listify_entry Doc.get].
  rewrite (lookup_map_values _ _ _ _ listify_protein_wrap).
  destruct (Doc.lookup "protein" d) as [protein|]; cbn [fmap option_fmap option_map].
  - destruct protein as [| | | | |l|pd]; try reflexivity.
    cbn [wrap_protein String.eqb Ascii.eqb Bool.eqb Doc.get].
    rewrite !(lookup_map_values _ _ _ _ listify_id_wrap).
    destruct (Doc.lookup "id" pd) as [pid|]; cbn [fmap option_fmap option_map].
    + replace (match wrap_id "id" pid with VStr s => VList [VStr s] | _ => wrap_id "id" pid end)
        with (match pid with VStr s => VList [VStr s] | _ => pid end) by (destruct pid; reflexivity).
      destruct (Doc.lookup "sequence" pd) as [seq|]; cbn [fmap option_fmap option_map].
      * replace (wrap_id "sequence" seq) with seq by (destruct seq; reflexivity).
        destruct (AF3AB.chain_in "B" _); [|reflexivity].
        destruct (AF3AB.chain_in "C" _); [|reflexivity]. apply IH.
      * destruct (AF3AB.chain_in "B" _); [|reflexivity].
        destruct (AF3AB.chain_in "C" _); [|reflexivity]. apply IH.
    + destruct (Doc.lookup "sequence" pd) as [seq|]; cbn [fmap option_fmap option_map].
      * replace (wrap_id "sequence" seq) with seq by (destruct seq; reflexivity).
        cbn. apply IH.
      * cbn. apply IH.
  - cbn. apply IH.
Qed.

Lemma af3ab_document_listify doc :
  AF3AB.extract_BC_sequences (listify doc) = AF3AB.extract_BC_sequences doc.
Proof.
  destruct doc as [| | | | |l|d]; try reflexivity.
  unfold AF3AB.extract_BC_sequences. cbn [listify Doc.get].
  rewrite (lookup_map_values _ _ _ _ listify_sequences_wrap).
  destruct (Doc.lookup "sequences" d) as [sequences|]; cbn [fmap option_fmap option_map]; [|reflexivity].
  destruct sequences as [| | | | |l|d']; try reflexivity.
  cbn [wrap_sequences String.eqb Ascii.eqb Bool.eqb Doc.iter]. apply af3ab_loop_listify.
Qed.

(** AF3: an entry whose identifier is a bare string is passed over. *)
Lemma af3_scalar_id_skipped d pd s rest :
  Doc.lookup "protein" d = Some (VDict pd) ->
  Doc.lookup "id" pd = Some (VStr s) ->
  AF3.chain_b_loop (VDict d :: rest) = AF3.chain_b_loop rest.
Proof.
  intros Hp Hid. cbn [AF3.chain_b_loop Doc.get]. rewrite Hp. cbn [Doc.get]. rewrite Hid. reflexivity.
Qed.

(** Two documents that differ only in how identifiers are written have the
    same image under [listify]. *)
Lemma listify_examples : listify Ex.doc_scalar = listify Ex.doc_list.
Proof. reflexivity. Qed.

End Chains.

(** C4, as the code has it.  Two documents that differ only in that
    identifiers are written as a bare string in one and as the list of
    that string in the other give the same result in the Boltz routine
    [parse_chain_b_sequence] and in [extract_BC_sequences] of the
    antibody script.  [find_chain_b_sequence] of the AF3 script matches
    list identifiers only: an entry whose identifier is a bare string is
    passed over. *)
Theorem identifier_encoding_as_coded `{External} :
  (forall d1 d2,
     listify d1 = listify d2 ->
     Boltz.chain_b_of_document d1 = Boltz.chain_b_of_document d2 /\
     AF3AB.extract_BC_sequences d1 = AF3AB.extract_BC_sequences d2)
  /\ (forall d pd s rest,
        Doc.lookup "protein" d = Some (VDict pd) ->
        Doc.lookup "id" pd = Some (VStr s) ->
        AF3.chain_b_loop (VDict d :: rest) = AF3.chain_b_loop rest).
Proof.
  split.
  - intros d1 d2 Hl. split.
    + rewrite <- (boltz_document_listify d1), <- (boltz_document_listify d2). now rewrite Hl.
    + rewrite <- (af3ab_document_listify d1), <- (af3ab_document_listify d2). now rewrite Hl.
  - intros d pd s rest. apply af3_scalar_id_skipped.
Qed.

(** C4, witness: chain B written ["B"] and [["B"]]. *)
Lemma identifier_encoding_as_coded_witness :
  (Boltz.chain_b_of_document (H0 := Ex.env Ex.failing) Ex.doc_scalar
   = Boltz.chain_b_of_document (H0 := Ex.env Ex.failing) Ex.doc_list /\
   AF3AB.extract_BC_sequences Ex.doc_scalar = AF3AB.extract_BC_sequences Ex.doc_list)
  /\ AF3.chain_b_loop [Ex.entry (VStr "B") "GSH"] = AF3.chain_b_loop [].
Proof.
  destruct (@identifier_encoding_as_coded binary64 (Ex.env Ex.failing)) as [Hsame Hskip].
  split.
  - apply Hsame. reflexivity.
  - apply (Hskip _ [("id", VStr "B"); ("sequence", VStr "GSH")] "B"); reflexivity.
Defined.

(** C4, counterexample: [find_chain_b_sequence] finds chain B when its
    identifier is the list and not when it is the bare string. *)
Lemma af3_bare_identifier_not_matched :
  AF3.chain_b_of_document Ex.doc_list = Ok (Some "GSH")
  /\ AF3.chain_b_of_document Ex.doc_scalar = Ok None.
Proof. split; reflexivity. Qed.


(** ** Enumeration order *)

Section Sorting.
Context {K A : Type} (lt : K -> K -> outcome bool).

Lemma insert_spec (x : K * A) l r :
  PySort.insert lt x l = Ok r ->
  Permutation (x :: l) r /\
  (Sorted (in_order lt) l -> Sorted (in_order lt) r) /\
  (forall a, HdRel (in_order lt) a l -> (in_order lt) a x -> HdRel (in_order lt) a r).
Proof.
  revert r. induction l as [|y l IH]; intros r Hr; simpl in Hr.
  - inversion Hr; subst r. repeat split; auto.
  - destruct (lt (fst y) (fst x)) as [[|]|e] eqn:Hyx; try discriminate.
    + destruct (PySort.insert lt x l) as [r'|e] eqn:Hins; [|discriminate].
      inversion Hr; subst r. destruct (IH r' eq_refl) as (Hperm & Hsorted & Hhd).
      split; [|split].
      * rewrite perm_swap. now constructor.
      * intros Hs. inversion Hs; subst. constructor; [auto|].
        apply Hhd; [assumption | now left].
      * intros a Ha _. inversion Ha; subst. now constructor.
    + inversion Hr; subst r. split; [|split].
      * reflexivity.
      * intros Hs. constructor; [assumption|]. constructor. now right.
      * intros a _ Hax. now constructor.
Qed.

Lemma sort_decorated_spec (d s : list (K * A)) :
  PySort.sort_decorated lt d = Ok s -> Permutation d s /\ Sorted (in_order lt) s.
Proof.
  revert s. induction d as [|x d IH]; intros s Hs; simpl in Hs.
  - inversion Hs; subst. split; constructor.
  - destruct (PySort.sort_decorated lt d) as [s'|e]; [|discriminate].
    destruct (IH s' eq_refl) as [Hperm Hsorted].
    destruct (insert_spec _ _ _ Hs) as (Hp & Hso & _).
    split; [|auto]. rewrite <- Hp. now constructor.
Qed.

(** When no comparison between keys of the list raises, the sort returns. *)
Lemma insert_total (x : K * A) (l : list (K * A)) :
  Forall (fun y => exists b, lt (fst y) (fst x) = Ok b) l ->
  exists r, PySort.insert lt x l = Ok r.
Proof.
  induction 1 as [|y l [b Hb] _ [r IH]]; simpl; [eauto|].
  rewrite Hb. destruct b; [rewrite IH|]; eauto.
Qed.

Lemma sort_decorated_total (d : list (K * A)) :
  (forall x y, In x d -> In y d -> exists b, lt (fst x) (fst y) = Ok b) ->
  exists s, PySort.sort_decorated lt d = Ok s.
Proof.
  induction d as [|x d IH]; intros Hc; simpl; [eauto|].
  destruct IH as [s Hs]; [intros a b Ha Hb; apply Hc; now right|].
  rewrite Hs. apply insert_total. apply List.Forall_forall. intros y Hy.
  apply Hc; [right | now left].
  destruct (sort_decorated_spec _ _ Hs) as [Hp _].
  eapply Permutation_in; [symmetry; exact Hp | exact Hy].
Qed.

Lemma decorate_total (key : A -> outcome K) (f : A -> K) l :
  (forall x, In x l -> key x = Ok (f x)) ->
  PySort.decorate key l = Ok (map (fun x => (f x, x)) l).
Proof.
  induction l as [|x l IH]; intros Hk; simpl; [reflexivity|].
  rewrite (Hk x) by (now left). rewrite IH by (intros y Hy; apply Hk; now right). reflexivity.
Qed.

(** The sort with keys [f] that compare without raising: the result is a
    permutation whose neighbours are in order. *)
Lemma sorted_spec (key : A -> outcome K) (f : A -> K) l :
  (forall x, In x l -> key x = Ok (f x)) ->
  (forall x y, In x l -> In y l -> exists b, lt (f x) (f y) = Ok b) ->
  exists l', PySort.sorted lt key l = Ok l' /\ Permutation l l' /\
             Sorted (fun a b => lt (f a) (f b) = Ok true \/ lt (f b) (f a) = Ok false) l'.
Proof.
  intros Hk Hc. unfold PySort.sorted. rewrite (decorate_total key f l Hk).
  destruct (sort_decorated_total (map (fun x => (f x, x)) l)) as [s Hs].
  { intros a b Ha Hb. apply in_map_iff in Ha as (x & <- & Hx). apply in_map_iff in Hb as (y & <- & Hy).
    simpl. now apply Hc. }
  rewrite Hs. exists (map snd s). destruct (sort_decorated_spec _ _ Hs) as [Hp Hso].
  split; [reflexivity|]. split.
  - replace l with (map snd (map (fun x => (f x, x)) l)) at 1
      by (rewrite map_map; simpl; apply map_id).
    now apply Permutation_map.
  - assert (Hall : Forall (fun kx => fst kx = f (snd kx)) s).
    { apply List.Forall_forall. intros kx Hin.
      apply (Permutation_in _ (Permutation_sym Hp)) in Hin.
      apply in_map_iff in Hin as (x & <- & _). reflexivity. }
    clear Hs Hp. induction Hso as [|a s Hs IH Hhd]; simpl; [constructor|].
    inversion Hall as [|? ? Ha Hall']; subst. constructor; [auto|].
    destruct Hhd as [|b s' Hab]; simpl; constructor.
    inversion Hall' as [|? ? Hb ?]; subst. unfold in_order in Hab. now rewrite Ha, Hb in Hab.
Qed.

End Sorting.

Lemma str_lt_asym a : forall b, PyStr.str_lt a b = true -> PyStr.str_lt b a = false.
Proof.
  induction a as [|x a IH]; intros [|y b]; simpl; try easy.
  destruct (Nat.ltb_spec (nat_of_ascii x) (nat_of_ascii y)) as [Hxy|Hxy];
    destruct (Nat.ltb_spec (nat_of_ascii y) (nat_of_ascii x)) as [Hyx|Hyx]; try easy; try lia.
  apply IH.
Qed.

Lemma str_le_trans a : forall b c,
  PyStr.str_lt b a = false -> PyStr.str_lt c b = false -> PyStr.str_lt c a = false.
Proof.
  induction a as [|x a IH]; intros [|y b] [|z c]; simpl; try easy.
  destruct (Nat.ltb_spec (nat_of_ascii y) (nat_of_ascii x)) as [Hyx|Hyx]; [easy|].
  destruct (Nat.ltb_spec (nat_of_ascii x) (nat_of_ascii y)) as [Hxy|Hxy];
  destruct (Nat.ltb_spec (nat_of_ascii z) (nat_of_ascii y)) as [Hzy|Hzy]; try easy;
  destruct (Nat.ltb_spec (nat_of_ascii y) (nat_of_ascii z)) as [Hyz|Hyz];
  destruct (Nat.ltb_spec (nat_of_ascii z) (nat_of_ascii x)) as [Hzx|Hzx]; try easy; try lia;
  destruct (Nat.ltb_spec (nat_of_ascii x) (nat_of_ascii z)) as [Hxz|Hxz]; try easy; try lia.
  apply IH.
Qed.

Lemma all_chars_forallb P s : forallb P (list_ascii_of_string s) = all_chars P s.
Proof. induction s as [|c s IH]; simpl; [reflexivity | now rewrite IH]. Qed.

Lemma chunks_shape s :
  plain s = true ->
  let '(d, h, r) := AF3.chunks s in shape d (h :: r).
Proof.
  induction s as [|c s IH]; intros Hp; simpl.
  - repeat split.
  - unfold plain in Hp. simpl in Hp. apply andb_prop in Hp as [Hc Hp].
    specialize (IH Hp). destruct (AF3.chunks s) as [[d h] r].
    destruct (PyStr.is_decimal c) eqn:Hdec; destruct d; simpl in IH |- *.
    + destruct IH as ((Hne & Hall) & Hph & Hr). repeat split; auto.
      * rewrite Hdec, Hall. reflexivity.
      * unfold plain. simpl. now rewrite Hc.
    + destruct IH as (Hall & Hph & Hr). repeat split; auto.
      * now rewrite Hdec.
      * unfold plain. simpl. now rewrite Hc.
    + destruct IH as ((Hne & Hall) & Hph & Hr). repeat split; auto.
      * now rewrite Hdec.
      * unfold plain. simpl. now rewrite Hc.
    + destruct IH as (Hall & Hph & Hr). repeat split; auto.
      * rewrite Hdec, Hall. reflexivity.
      * unfold plain. simpl. now rewrite Hc.
Qed.

Lemma re_split_shape s : plain s = true -> shape false (AF3.re_split_digits s).
Proof.
  intros Hp. pose proof (chunks_shape s Hp) as Hs. unfold AF3.re_split_digits.
  destruct (AF3.chunks s) as [[d h] r]. destruct d; [|exact Hs].
  simpl. repeat split; apply Hs.
Qed.

Lemma isdigit_run h :
  h <> "" -> all_chars PyStr.is_decimal h = true ->
  AF3.isdigit h = true /\ exists n, AF3.int_of h = Ok n.
Proof.
  intros Hne Hall. split.
  - unfold AF3.isdigit. destruct h; [congruence|]. rewrite all_chars_forallb.
    clear Hne. revert Hall. generalize (String a h). intros s. induction s as [|c s IH]; simpl; [easy|].
    intros Hc. apply andb_prop in Hc as [Hc Hs]. unfold PyStr.isdigit_char. rewrite Hc. simpl. auto.
  - unfold AF3.int_of. rewrite all_chars_forallb, Hall. eauto.
Qed.

Lemma isdigit_text h :
  all_chars (fun c => negb (PyStr.is_decimal c)) h = true -> plain h = true ->
  AF3.isdigit h = false.
Proof.
  intros Hnd Hp. destruct h as [|c h]; [reflexivity|].
  unfold AF3.isdigit. simpl. unfold plain in Hp. simpl in Hnd, Hp.
  apply andb_prop in Hnd as [Hc _]. apply andb_prop in Hp as [Hpc _].
  unfold plain_char in Hpc. apply negb_true_iff in Hc. rewrite Hc in Hpc. simpl in Hpc.
  apply negb_true_iff in Hpc. now rewrite Hpc.
Qed.

Lemma key_of_chunks_alternates l : forall d,
  shape d l -> exists k, AF3.key_of_chunks l = Ok k /\ alternates (negb d) k.
Proof.
  induction l as [|h r IH]; intros d Hs; simpl; [exists []; split; auto; exact I|].
  destruct Hs as (Hh & Hp & Hr). destruct (IH _ Hr) as (k & Hk & Halt).
  destruct d.
  - destruct Hh as [Hne Hall]. destruct (isdigit_run h Hne Hall) as [Hd [n Hn]].
    rewrite Hd, Hn, Hk. eexists; split; [reflexivity|]. simpl. auto.
  - rewrite (isdigit_text h Hh Hp), Hk. eexists; split; [reflexivity|]. simpl. auto.
Qed.

Lemma natural_sort_key_alternates s :
  plain s = true -> exists k, AF3.natural_sort_key s = Ok k /\ alternates true k.
Proof.
  intros Hp. apply (key_of_chunks_alternates _ false). now apply re_split_shape.
Qed.

Lemma key_lt_total a : forall b t,
  alternates t a -> alternates t b -> exists r, AF3.key_lt a b = Ok r.
Proof.
  induction a as [|x a IH]; intros [|y b] t Ha Hb; simpl; eauto.
  destruct x, y; simpl in Ha, Hb; destruct Ha as [Ht Ha], Hb as [Ht' Hb];
    try congruence; simpl.
  - destruct (n =? n0)%Z; [eapply IH; eauto | eauto].
  - destruct (String.eqb s s0); [eapply IH; eauto | eauto].
Qed.

Lemma chunk_eq_sym x y : AF3.chunk_eq x y = AF3.chunk_eq y x.
Proof.
  destruct x, y; simpl; try reflexivity; [apply Z.eqb_sym | apply String.eqb_sym].
Qed.

Lemma key_lt_asym a : forall b, AF3.key_lt a b = Ok true -> AF3.key_lt b a = Ok false.
Proof.
  induction a as [|x a IH]; intros [|y b]; simpl; try easy.
  rewrite (chunk_eq_sym y x). destruct (AF3.chunk_eq x y); [apply IH|].
  destruct x, y; simpl; try easy; intros [= Hlt]; f_equal.
  - lia.
  - now apply str_lt_asym.
Qed.


Lemma Sorted_weaken {X} (R R' : X -> X -> Prop) (P : X -> Prop) l :
  (forall a b, P a -> P b -> R a b -> R' a b) ->
  Forall P l -> Sorted R l -> Sorted R' l.
Proof.
  intros Himp Hall Hs. induction Hs as [|a l Hs IH Hhd]; [constructor|].
  inversion Hall as [|? ? Ha Hl]; subst. constructor; [auto|].
  destruct Hhd as [|b l' Hab]; constructor.
  inversion Hl; subst. auto.
Qed.

Lemma Forall_permutation {X} (P : X -> Prop) l l' :
  Permutation l l' -> Forall P l -> Forall P l'.
Proof.
  intros Hp Hall. apply List.Forall_forall. intros x Hx.
  rewrite List.Forall_forall in Hall. apply Hall.
  eapply Permutation_in; [symmetry; exact Hp | exact Hx].
Qed.

Lemma boltz_sorted_numeric (dirs : list path) :
  Forall (fun d => Boltz.search_trailing_digits (Boltz.name d) <> None) dirs ->
  exists l, PySort.sorted Boltz.key_lt boltz_key dirs = Ok l /\ Permutation dirs l /\
            StronglySorted (fun a b => (trailing_int (Boltz.name a) <= trailing_int (Boltz.name b))%Z) l.
Proof.
  intros Hnum.
  assert (Hkey : forall d, Boltz.search_trailing_digits (Boltz.name d) <> None ->
                 Boltz.natural_binder_sort_key (Boltz.name d) = Boltz.KInt (trailing_int (Boltz.name d))).
  { intros d Hd. unfold Boltz.natural_binder_sort_key, trailing_int.
    destruct (Boltz.search_trailing_digits (Boltz.name d)); [reflexivity | congruence]. }
  destruct (sorted_spec Boltz.key_lt boltz_key
              (fun d => Boltz.natural_binder_sort_key (Boltz.name d)) dirs) as (l & Hl & Hp & Hs).
  - reflexivity.
  - intros x y Hx Hy. rewrite List.Forall_forall in Hnum.
    rewrite (Hkey x), (Hkey y) by auto. simpl. eauto.
  - exists l. split; [exact Hl|]. split; [exact Hp|].
    apply Sorted_StronglySorted; [intros a b c; apply Z.le_trans|].
    eapply Sorted_weaken; [| exact (Forall_permutation _ _ _ Hp Hnum) | exact Hs].
    intros a b Ha Hb. cbn beta. rewrite (Hkey a Ha), (Hkey b Hb). simpl.
    intros [[= Hlt]|[= Hge]]; lia.
Qed.

Lemma boltz_sorted_names (dirs : list path) :
  Forall (fun d => Boltz.search_trailing_digits (Boltz.name d) = None) dirs ->
  exists l, PySort.sorted Boltz.key_lt boltz_key dirs = Ok l /\ Permutation dirs l /\
            StronglySorted (fun a b => PyStr.str_lt (Boltz.name b) (Boltz.name a) = false) l.
Proof.
  intros Hnon.
  assert (Hkey : forall d, Boltz.search_trailing_digits (Boltz.name d) = None ->
                 Boltz.natural_binder_sort_key (Boltz.name d) = Boltz.KStr (Boltz.name d)).
  { intros d Hd. unfold Boltz.natural_binder_sort_key. now rewrite Hd. }
  destruct (sorted_spec Boltz.key_lt boltz_key
              (fun d => Boltz.natural_binder_sort_key (Boltz.name d)) dirs) as (l & Hl & Hp & Hs).
  - reflexivity.
  - intros x y Hx Hy. rewrite List.Forall_forall in Hnon.
    rewrite (Hkey x), (Hkey y) by auto. simpl. eauto.
  - exists l. split; [exact Hl|]. split; [exact Hp|].
    apply Sorted_StronglySorted.
    { intros a b c Hab Hbc. eapply str_le_trans; eauto. }
    eapply Sorted_weaken; [| exact (Forall_permutation _ _ _ Hp Hnon) | exact Hs].
    intros a b Ha Hb. cbn beta. rewrite (Hkey a Ha), (Hkey b Hb). simpl.
    intros [[= Hlt]|[= Hge]]; [now apply str_lt_asym | exact Hge].
Qed.

Lemma af3_sorted_plain (names : list string) :
  Forall (fun n => plain n = true) names ->
  exists l, PySort.sorted AF3.key_lt AF3.natural_sort_key names = Ok l /\ Permutation names l /\
            Sorted (fun a b => AF3.key_lt (af3_key b) (af3_key a) = Ok false) l.
Proof.
  intros Hplain.
  assert (Hkey : forall n, plain n = true ->
                 AF3.natural_sort_key n = Ok (af3_key n) /\ alternates true (af3_key n)).
  { intros n Hn. destruct (natural_sort_key_alternates n Hn) as (k & Hk & Halt).
    unfold af3_key. rewrite Hk. auto. }
  destruct (sorted_spec AF3.key_lt AF3.natural_sort_key af3_key names) as (l & Hl & Hp & Hs).
  - intros x Hx. rewrite List.Forall_forall in Hplain. now apply Hkey, Hplain.
  - intros x y Hx Hy. rewrite List.Forall_forall in Hplain.
    apply (key_lt_total _ _ true); apply Hkey; auto.
  - exists l. split; [exact Hl|]. split; [exact Hp|].
    eapply Sorted_weaken with (P := fun _ => True); [| now apply List.Forall_forall | exact Hs].
    intros a b _ _ [Hlt|Hge]; [now apply key_lt_asym | exact Hge].
Qed.

(** C5, as the code has it.  Both pipelines enumerate [binder_1],
    [binder_10], [binder_2] as [binder_1], [binder_2], [binder_10].  In the
    Boltz pipeline a list of directories whose names all end in an integer
    comes out ordered by that integer, and a list in which no name does
    comes out ordered by name.  In the AF3 pipeline the names, when they
    are plain, come out ordered by their keys: the texts between the runs
    of digits in lower case and the runs of digits by value, compared in
    turn from the left. *)
Theorem enumeration_order_as_coded :
  PySort.sorted Boltz.key_lt boltz_key
    [["run"; "binder_1"]; ["run"; "binder_10"]; ["run"; "binder_2"]]
  = Ok [["run"; "binder_1"]; ["run"; "binder_2"]; ["run"; "binder_10"]]
  /\ PySort.sorted AF3.key_lt AF3.natural_sort_key ["binder_1"; "binder_10"; "binder_2"]
     = Ok ["binder_1"; "binder_2"; "binder_10"]
  /\ (forall dirs : list path,
        Forall (fun d => Boltz.search_trailing_digits (Boltz.name d) <> None) dirs ->
        exists l, PySort.sorted Boltz.key_lt boltz_key dirs = Ok l /\ Permutation dirs l /\
                  StronglySorted (fun a b => (trailing_int (Boltz.name a)
                                              <= trailing_int (Boltz.name b))%Z) l)
  /\ (forall dirs : list path,
        Forall (fun d => Boltz.search_trailing_digits (Boltz.name d) = None) dirs ->
        exists l, PySort.sorted Boltz.key_lt boltz_key dirs = Ok l /\ Permutation dirs l /\
                  StronglySorted (fun a b => PyStr.str_lt (Boltz.name b) (Boltz.name a) = false) l)
  /\ (forall names : list string,
        Forall (fun n => plain n = true) names ->
        exists l, PySort.sorted AF3.key_lt AF3.natural_sort_key names = Ok l /\
                  Permutation names l /\
                  Sorted (fun a b => AF3.key_lt (af3_key b) (af3_key a) = Ok false) l).
Proof.
  split; [reflexivity|]. split; [reflexivity|].
  split; [exact boltz_sorted_numeric|]. split; [exact boltz_sorted_names | exact af3_sorted_plain].
Qed.

(** C5, witness: directories that end in 7, 30 and 7, and names without a
    number. *)
Lemma enumeration_order_as_coded_witness :
  (exists l, PySort.sorted Boltz.key_lt boltz_key [["binder_b7"]; ["binder_30"]; ["binder_a7"]] = Ok l
             /\ Permutation [["binder_b7"]; ["binder_30"]; ["binder_a7"]] l
             /\ StronglySorted (fun a b => (trailing_int (Boltz.name a)
                                            <= trailing_int (Boltz.name b))%Z) l)
  /\ (exists l, PySort.sorted Boltz.key_lt boltz_key [["binder_y"]; ["binder_x"]] = Ok l
                /\ Permutation [["binder_y"]; ["binder_x"]] l
                /\ StronglySorted (fun a b => PyStr.str_lt (Boltz.name b) (Boltz.name a) = false) l)
  /\ (exists l, PySort.sorted AF3.key_lt AF3.natural_sort_key ["binder_z1"; "binder_a"] = Ok l
                /\ Permutation ["binder_z1"; "binder_a"] l
                /\ Sorted (fun a b => AF3.key_lt (af3_key b) (af3_key a) = Ok false) l).
Proof.
  destruct enumeration_order_as_coded as (_ & _ & Hnum & Hnames & Haf3).
  split; [|split].
  - apply Hnum. repeat constructor; discriminate.
  - apply Hnames. repeat constructor.
  - apply Haf3. repeat constructor.
Defined.

(** C5, counterexample: in the AF3 pipeline [binder_a], which has no
    number, comes before [binder_z1], which ends in one; in the Boltz
    pipeline the same two names do not sort at all, because the key of one
    is an [int] and the key of the other a [str]. *)
Lemma names_without_number_not_last :
  PySort.sorted AF3.key_lt AF3.natural_sort_key ["binder_z1"; "binder_a"]
  = Ok ["binder_a"; "binder_z1"]
  /\ PySort.sorted Boltz.key_lt boltz_key [["run"; "binder_z1"]; ["run"; "binder_a"]]
     = Raise TypeError.
Proof. split; reflexivity. Qed.

(** ** The owning root *)

Section Roots.
Import AF3AB.





End Roots.


(** ** Scoring and filtering *)

Section Scorer.
Context `{External}.
Import IO.

Lemma bind_ok {X Y} (m : io X) (k : X -> io Y) w a w' :
  m w = (Ok a, w') -> bind m k w = k a w'.
Proof. unfold bind. now intros ->. Qed.

Lemma bind_raise {X Y} (m : io X) (k : X -> io Y) w e w' :
  m w = (Raise e, w') -> bind m k w = (Raise e, w').
Proof. unfold bind. now intros ->. Qed.

Lemma is_dir_eq p w : is_dir p w = (Ok (isdir (fs w) p), w).
Proof. reflexivity. Qed.

Lemma is_file_eq p w : is_file p w = (Ok (isfile (fs w) p), w).
Proof. reflexivity. Qed.

Lemma exists_eq p w : exists_ p w = (Ok (present (fs w) p), w).
Proof. reflexivity. Qed.

Lemma boltz_run_memo w pred_dir script pae cif c d :
  isfile (fs w) (join pred_dir pae) = true ->
  isfile (fs w) (join pred_dir cif) = true ->
  isfile (fs w) (boltz_out_txt pred_dir cif c d) = true ->
  Boltz.run_ipsae pred_dir script pae cif c d w = (Ok (Some (boltz_out_txt pred_dir cif c d)), w).
Proof.
  unfold isfile, boltz_out_txt. intros Hp Hc Ho.
  unfold Boltz.run_ipsae, bind, is_file, ret. cbn beta iota zeta.
  destruct (fs w !! join pred_dir pae) as [[|?]|]; try discriminate.
  destruct (fs w !! join pred_dir cif) as [[|?]|]; try discriminate.
  cbn. destruct (fs w !! _) as [[|?]|]; try discriminate. reflexivity.
Qed.

Lemma boltz_run_missing_input w pred_dir script pae cif c d :
  isfile (fs w) (join pred_dir pae) = false \/ isfile (fs w) (join pred_dir cif) = false ->
  Boltz.run_ipsae pred_dir script pae cif c d w
  = (Ok None, World (fs w) (procs w)
                    (stdout w ++ [Print "[WARN] Missing PAE or CIF in {pred_dir}, skipping."
                                        [path_str pred_dir]])).
Proof.
  intros Hmiss. unfold Boltz.run_ipsae.
  rewrite (bind_ok _ _ _ _ _ (is_file_eq _ _)), (bind_ok _ _ _ _ _ (is_file_eq _ _)).
  destruct Hmiss as [-> | ->]; [reflexivity|].
  now destruct (isfile (fs w) (join pred_dir pae)).
Qed.

Lemma boltz_run_no_process w pred_dir script pae cif c d :
  isfile (fs w) (boltz_out_txt pred_dir cif c d) = true ->
  procs (snd (Boltz.run_ipsae pred_dir script pae cif c d w)) = procs w /\
  fs (snd (Boltz.run_ipsae pred_dir script pae cif c d w)) = fs w.
Proof.
  unfold isfile, boltz_out_txt. intros Ho.
  unfold Boltz.run_ipsae, bind, is_file, ret, print. cbn beta iota zeta.
  destruct (fs w !! join pred_dir pae) as [[|?]|]; cbn; auto;
  destruct (fs w !! join pred_dir cif) as [[|?]|]; cbn; auto.
  destruct (fs w !! _) as [[|?]|]; try discriminate. cbn. auto.
Qed.

Lemma boltz_run_result w pred_dir script pae cif c d p w1 :
  Boltz.run_ipsae pred_dir script pae cif c d w = (Ok (Some p), w1) ->
  p = boltz_out_txt pred_dir cif c d /\ isfile (fs w1) p = true /\
  (length (procs w1) <= S (length (procs w)))%nat.
Proof.
  unfold isfile, boltz_out_txt.
  unfold Boltz.run_ipsae, bind, is_file, ret, print, run. cbn beta iota zeta.
  destruct (fs w !! join pred_dir pae) as [[|?]|]; cbn; try discriminate;
  destruct (fs w !! join pred_dir cif) as [[|?]|]; cbn; try discriminate.
  destruct (fs w !! _) as [[|?]|] eqn:Ho; cbn.
  all: try (destruct (subprocess_run _ _ _) as [status fs'] eqn:Hrun; cbn;
            destruct (status =? 0)%Z; cbn; try discriminate;
            destruct (fs' !! _) as [[|?]|] eqn:Ho'; cbn; try discriminate;
            intros [= <- <-]; cbn; rewrite Ho'; rewrite length_app; cbn; split; [reflexivity | split; [reflexivity | lia]]).
  intros [= <- <-]. rewrite Ho. auto.
Qed.

Lemma af3_run_memo w working_dir script :
  present (fs w) (join working_dir AF3.txt_name) = true ->
  exists out, AF3.run_ipsae working_dir script w = (Ok tt, World (fs w) (procs w) out).
Proof.
  unfold present. intros Hp. unfold AF3.run_ipsae, bind, exists_, print. cbn beta iota zeta.
  destruct (fs w !! _); [|discriminate]. cbn. eauto.
Qed.

Lemma boltz_run_missing_output w pred_dir script pae cif c d fs' :
  isfile (fs w) (join pred_dir pae) = true ->
  isfile (fs w) (join pred_dir cif) = true ->
  isfile (fs w) (boltz_out_txt pred_dir cif c d) = false ->
  subprocess_run (boltz_cmd pred_dir script pae cif c d) pred_dir (fs w) = (0%Z, fs') ->
  isfile fs' (boltz_out_txt pred_dir cif c d) = false ->
  exists out,
    Boltz.run_ipsae pred_dir script pae cif c d w
    = (Ok None, World fs' (procs w ++ [(boltz_cmd pred_dir script pae cif c d, pred_dir)]) out)
    /\ last out = Some (Print "[ERROR] Expected output {out_txt} not found after ipsae.py."
                              [path_str (boltz_out_txt pred_dir cif c d)]).
Proof.
  unfold isfile, boltz_out_txt, boltz_cmd. intros Hp Hc Ho Hrun Ho'.
  unfold Boltz.run_ipsae, bind, is_file, ret, print, run. cbn beta iota zeta.
  destruct (fs w !! join pred_dir pae) as [[|?]|]; try discriminate.
  destruct (fs w !! join pred_dir cif) as [[|?]|]; try discriminate.
  cbn.
  destruct (fs w !! _) as [[|?]|]; try discriminate.
  all: cbn; rewrite Hrun; cbn;
    destruct (fs' !! _) as [[|?]|]; try discriminate;
    cbn; eexists; (split; [reflexivity | apply last_snoc]).
Qed.

Lemma boltz_step_missing_output w script threshold rows binder_dir fs' :
  let pred_dir := boltz_pred_dir binder_dir in
  let out := boltz_out_txt pred_dir "input_model_0.cif" 10 10 in
  let cmd := boltz_cmd pred_dir script "pae_input_model_0.npz" "input_model_0.cif" 10 10 in
  isdir (fs w) pred_dir = true ->
  isfile (fs w) (join pred_dir "pae_input_model_0.npz") = true ->
  isfile (fs w) (join pred_dir "input_model_0.cif") = true ->
  isfile (fs w) out = false ->
  subprocess_run cmd pred_dir (fs w) = (0%Z, fs') ->
  isfile fs' out = false ->
  exists stdout',
    Boltz.collect_step script threshold rows binder_dir w
    = (Ok rows, World fs' (procs w ++ [(cmd, pred_dir)]) stdout')
    /\ last stdout' = Some (Print "[ERROR] Expected output {out_txt} not found after ipsae.py."
                                  [path_str out]).
Proof.
  intros pred_dir out cmd Hd Hp Hc Ho Hrun Ho'.
  destruct (boltz_run_missing_output w pred_dir script _ _ _ _ fs' Hp Hc Ho Hrun Ho') as (so & Hr & Hl).
  exists so. split; [|exact Hl].
  unfold Boltz.collect_step. fold (boltz_pred_dir binder_dir). fold pred_dir.
  rewrite (bind_ok _ _ _ _ _ (is_dir_eq _ _)), Hd. cbn [negb].
  rewrite (bind_ok _ _ _ _ _ Hr). reflexivity.
Qed.

Lemma af3_step_missing_output w base_dir script results binder fs' :
  let work_dir := af3_work_dir base_dir binder in
  let txt_path := join work_dir AF3.txt_name in
  isdir (fs w) work_dir = true ->
  present (fs w) txt_path = false ->
  present (fs w) (join work_dir AF3.json_name) = true ->
  present (fs w) (join work_dir AF3.cif_name) = true ->
  subprocess_run (af3_cmd script) work_dir (fs w) = (0%Z, fs') ->
  present fs' txt_path = false ->
  exists stdout',
    AF3.main_step base_dir script results binder w
    = (Ok results, World fs' (procs w ++ [(af3_cmd script, work_dir)]) stdout')
    /\ last stdout' = Some (Print "[WARN] {binder}: output file {txt_path} not found, skipping."
                                  [binder; path_str txt_path]).
Proof.
  intros work_dir txt_path Hd Ht Hj Hc Hrun Ht'.
  unfold AF3.main_step. fold (af3_work_dir base_dir binder). fold work_dir. fold txt_path.
  rewrite (bind_ok _ _ _ _ _ (is_dir_eq _ _)), Hd. cbn [negb].
  assert (Hrun' : exists so, AF3.run_ipsae work_dir script w
                   = (Ok tt, World fs' (procs w ++ [(af3_cmd script, work_dir)]) so)).
  { unfold AF3.run_ipsae. fold txt_path.
    rewrite (bind_ok _ _ _ _ _ (exists_eq _ _)), Ht.
    rewrite (bind_ok _ _ _ _ _ (exists_eq _ _)), Hj.
    rewrite (bind_ok _ _ _ _ _ (exists_eq _ _)), Hc. cbn [negb orb].
    unfold bind, print, run, ret. cbn [fs procs stdout]. fold (af3_cmd script). rewrite Hrun. cbn. eauto. }
  destruct Hrun' as [so Hr]. rewrite (bind_ok _ _ _ _ _ Hr).
  rewrite (bind_ok _ _ _ _ _ (exists_eq _ _)). cbn [fs]. rewrite Ht'. cbn [negb].
  unfold bind, print, ret. cbn.
  eexists. split; [reflexivity | apply last_snoc].
Qed.

(** The comparison with the threshold in the Boltz loop. *)
Lemma boltz_step_threshold w script threshold rows binder_dir out w1 v w2 :
  isdir (fs w) (boltz_pred_dir binder_dir) = true ->
  Boltz.run_ipsae (boltz_pred_dir binder_dir) script "pae_input_model_0.npz" "input_model_0.cif" 10 10 w
    = (Ok (Some out), w1) ->
  Boltz.parse_ipsae_max out w1 = (Ok (Some v), w2) ->
  (exists e w', Boltz.collect_step script threshold rows binder_dir w = (Raise e, w')) \/
  (exists iptm seq w',
     Boltz.collect_step script threshold rows binder_dir w
     = (Ok (if float_ge v threshold
            then rows ++ [Boltz.Row (Boltz.name binder_dir) v iptm seq]
            else rows), w')).
Proof.
  intros Hd Hrun Hparse. unfold Boltz.collect_step. fold (boltz_pred_dir binder_dir).
  rewrite (bind_ok _ _ _ _ _ (is_dir_eq _ _)), Hd. cbn [negb].
  rewrite (bind_ok _ _ _ _ _ Hrun), (bind_ok _ _ _ _ _ Hparse).
  destruct (Boltz.parse_iptm (boltz_pred_dir binder_dir) "confidence_input_model_0.json" w2)
    as [[iptm|e] w3] eqn:Hi.
  2: { left. rewrite (bind_raise _ _ _ _ _ Hi). eauto. }
  rewrite (bind_ok _ _ _ _ _ Hi).
  destruct (Boltz.parse_chain_b_sequence binder_dir "input.yaml" w3) as [[seq|e] w4] eqn:Hs.
  2: { left. rewrite (bind_raise _ _ _ _ _ Hs). eauto. }
  rewrite (bind_ok _ _ _ _ _ Hs).
  right. exists iptm, seq. unfold bind, print, ret.
  destruct (float_ge v threshold); eauto.
Qed.

Lemma boltz_step_rows w script threshold rows binder_dir rows' w' :
  Boltz.collect_step script threshold rows binder_dir w = (Ok rows', w') ->
  rows' = rows \/
  exists r, rows' = rows ++ [r] /\ float_ge (Boltz.ipSAE r) threshold = true.
Proof.
  unfold Boltz.collect_step. fold (boltz_pred_dir binder_dir).
  rewrite (bind_ok _ _ _ _ _ (is_dir_eq _ _)).
  destruct (isdir (fs w) (boltz_pred_dir binder_dir)); cbn [negb].
  2: { unfold bind, print, ret. intros [= <- <-]. now left. }
  destruct (Boltz.run_ipsae (boltz_pred_dir binder_dir) script
              "pae_input_model_0.npz" "input_model_0.cif" 10 10 w)
    as [[[out|]|e] w1] eqn:Hrun.
  3: { rewrite (bind_raise _ _ _ _ _ Hrun). discriminate. }
  2: { rewrite (bind_ok _ _ _ _ _ Hrun). unfold ret. intros [= <- <-]. now left. }
  rewrite (bind_ok _ _ _ _ _ Hrun).
  destruct (Boltz.parse_ipsae_max out w1) as [[[v|]|e] w2] eqn:Hparse.
  3: { rewrite (bind_raise _ _ _ _ _ Hparse). discriminate. }
  2: { rewrite (bind_ok _ _ _ _ _ Hparse). unfold ret. intros [= <- <-]. now left. }
  rewrite (bind_ok _ _ _ _ _ Hparse).
  match goal with |- context [Boltz.parse_iptm ?p ?n] =>
    destruct (Boltz.parse_iptm p n w2) as [[iptm|e] w3] eqn:Hi end.
  2: { rewrite (bind_raise _ _ _ _ _ Hi). discriminate. }
  rewrite (bind_ok _ _ _ _ _ Hi).
  destruct (Boltz.parse_chain_b_sequence binder_dir "input.yaml" w3) as [[seq|e] w4] eqn:Hs.
  2: { rewrite (bind_raise _ _ _ _ _ Hs). discriminate. }
  rewrite (bind_ok _ _ _ _ _ Hs).
  unfold bind, print, ret. destruct (float_ge v threshold) eqn:Hge; intros [= <- <-].
  - right. eexists. split; [reflexivity | exact Hge].
  - now left.
Qed.

Lemma for_each_invariant {X B} (P : B -> Prop) (body : B -> X -> io B) l :
  (forall acc x w acc' w', P acc -> body acc x w = (Ok acc', w') -> P acc') ->
  forall acc w r w', P acc -> for_each l acc body w = (Ok r, w') -> P r.
Proof.
  intros Hbody. induction l as [|x l IH]; intros acc w r w' Hacc; simpl.
  - unfold ret. intros [= <- <-]. exact Hacc.
  - unfold bind. destruct (body acc x w) as [[acc1|e] w1] eqn:Hb; [|discriminate].
    apply IH. eapply Hbody; eauto.
Qed.

Lemma boltz_collect_rows w root_dir script threshold rows w' :
  Boltz.collect_ipsae root_dir script threshold w = (Ok rows, w') ->
  Forall (fun r => float_ge (Boltz.ipSAE r) threshold = true) rows.
Proof.
  unfold Boltz.collect_ipsae. unfold bind at 1. unfold listdir at 1.
  unfold bind at 1. destruct (for_each _ [] _ w) as [[dirs|e] w1]; [|discriminate].
  unfold bind at 1. unfold lift at 1.
  destruct (PySort.sorted _ _ dirs) as [sorted|e]; [|discriminate].
  unfold bind at 1. unfold print at 1. unfold bind at 1.
  match goal with |- context [for_each sorted [] ?b ?w0] =>
    destruct (for_each sorted [] b w0) as [[rs|e] w2] eqn:Hloop end; [|discriminate].
  unfold bind, print, ret. intros [= <- <-].
  eapply (for_each_invariant (fun rs => Forall (fun r => float_ge (Boltz.ipSAE r) threshold = true) rs));
    [| constructor | exact Hloop].
  intros acc x w0 acc' w0' Hacc Hstep.
  destruct (boltz_step_rows _ _ _ _ _ _ _ Hstep) as [->|(r & -> & Hr)]; [assumption|].
  apply Forall_app. split; [assumption | now constructor].
Qed.

End Scorer.

(** C7, as the code has it.  Boltz: when the output file and the two input
    files are there, [run_ipsae] returns the path of the output file and
    changes nothing; whenever the output file is there no process is
    started and no file is touched; when an input file is missing it
    warns and returns no path, whether the output file is there or not.
    AF3: when the output is there,
    [run_ipsae] starts no process and touches no file; it returns no
    path, [main] builds the path itself.  Two calls in a row: when the
    first Boltz call returns a path and the input files are still there,
    the second call returns the same path and changes nothing, and the
    first call has started one process at most. *)
Theorem scorer_memoized_as_coded `{External} :
  (forall w pred_dir script pae cif c d,
     isfile (fs w) (join pred_dir pae) = true ->
     isfile (fs w) (join pred_dir cif) = true ->
     isfile (fs w) (boltz_out_txt pred_dir cif c d) = true ->
     Boltz.run_ipsae pred_dir script pae cif c d w
     = (Ok (Some (boltz_out_txt pred_dir cif c d)), w))
  /\ (forall w pred_dir script pae cif c d,
        isfile (fs w) (boltz_out_txt pred_dir cif c d) = true ->
        procs (snd (Boltz.run_ipsae pred_dir script pae cif c d w)) = procs w /\
        fs (snd (Boltz.run_ipsae pred_dir script pae cif c d w)) = fs w)
  /\ (forall w working_dir script,
        present (fs w) (join working_dir AF3.txt_name) = true ->
        exists out, AF3.run_ipsae working_dir script w = (Ok tt, World (fs w) (procs w) out))
  /\ (forall w pred_dir script pae cif c d p w1,
        Boltz.run_ipsae pred_dir script pae cif c d w = (Ok (Some p), w1) ->
        isfile (fs w1) (join pred_dir pae) = true ->
        isfile (fs w1) (join pred_dir cif) = true ->
        Boltz.run_ipsae pred_dir script pae cif c d w1 = (Ok (Some p), w1) /\
        (List.length (procs w1) <= S (List.length (procs w)))%nat)
  /\ (forall w pred_dir script pae cif c d,
        isfile (fs w) (join pred_dir pae) = false \/ isfile (fs w) (join pred_dir cif) = false ->
        Boltz.run_ipsae pred_dir script pae cif c d w
        = (Ok None, World (fs w) (procs w)
                          (stdout w ++ [Print "[WARN] Missing PAE or CIF in {pred_dir}, skipping."
                                              [path_str pred_dir]]))).
Proof.
  split; [|split; [|split; [|split]]].
  - intros. now apply boltz_run_memo.
  - intros. now apply boltz_run_no_process.
  - intros. now apply af3_run_memo.
  - intros w pred_dir script pae cif c d p w1 Hrun Hp Hc.
    destruct (boltz_run_result _ _ _ _ _ _ _ _ _ Hrun) as (-> & Hout & Hlen).
    split; [now apply boltz_run_memo | exact Hlen].
  - intros. now apply boltz_run_missing_input.
Qed.

(** C7, witness: a scorer that writes its table, run twice on a directory
    that is ready; and an AF3 directory that holds its output. *)
Lemma scorer_memoized_as_coded_witness :
  let run := Boltz.run_ipsae (H0 := Ex.env (Ex.writing "input_model_0_10_10.txt" (Ex.boltz_table "0.9")))
               Ex.pred_dir Ex.script "pae_input_model_0.npz" "input_model_0.cif" 10 10 in
  let out := boltz_out_txt Ex.pred_dir "input_model_0.cif" 10 10 in
  fst (run Ex.boltz_ready) = Ok (Some out)
  /\ run (snd (run Ex.boltz_ready)) = (Ok (Some out), snd (run Ex.boltz_ready))
  /\ List.length (procs (snd (run Ex.boltz_ready))) = 1%nat
  /\ (exists out', AF3.run_ipsae (H0 := Ex.env Ex.failing) Ex.work_dir Ex.script
                     (Ex.af3_world "0.5" "0.7" "0.7")
                   = (Ok tt, World (fs (Ex.af3_world "0.5" "0.7" "0.7"))
                                   (procs (Ex.af3_world "0.5" "0.7" "0.7")) out')).
Proof.
  intros run out.
  assert (Hfirst : fst (run Ex.boltz_ready) = Ok (Some out)) by (vm_compute; reflexivity).
  split; [exact Hfirst|]. split; [|split; [vm_compute; reflexivity|]].
  - refine (proj1 (proj1 (proj2 (proj2 (proj2
             (@scorer_memoized_as_coded binary64
                (Ex.env (Ex.writing "input_model_0_10_10.txt" (Ex.boltz_table "0.9")))))))
             Ex.boltz_ready Ex.pred_dir Ex.script "pae_input_model_0.npz" "input_model_0.cif"
             10%Z 10%Z out (snd (run Ex.boltz_ready)) _ _ _)).
    + rewrite <- Hfirst. apply surjective_pairing.
    + vm_compute; reflexivity.
    + vm_compute; reflexivity.
  - apply (proj1 (proj2 (proj2 (@scorer_memoized_as_coded binary64 (Ex.env Ex.failing))))
             (Ex.af3_world "0.5" "0.7" "0.7") Ex.work_dir Ex.script).
    vm_compute. reflexivity.
Defined.

(** C7, counterexample.  The Boltz directory [Ex.boltz_output_only] holds
    the output file and not the inputs: [run_ipsae] returns no path.  And
    with a scorer that fails, two calls in a row on [Ex.boltz_ready] start
    the process twice. *)
Lemma output_present_yet_no_path_and_two_runs :
  let run := Boltz.run_ipsae (H0 := Ex.env Ex.failing)
               Ex.pred_dir Ex.script "pae_input_model_0.npz" "input_model_0.cif" 10 10 in
  isfile (fs Ex.boltz_output_only) (boltz_out_txt Ex.pred_dir "input_model_0.cif" 10 10) = true
  /\ fst (run Ex.boltz_output_only) = Ok None
  /\ List.length (procs (snd (run (snd (run Ex.boltz_ready))))) = 2%nat.
Proof. repeat split; vm_compute; reflexivity. Qed.

(** C8.  When the scorer exits with status zero and the output file is
    still missing, Boltz [run_ipsae] reports the missing output and
    returns no path, and the loop of [collect_ipsae] adds no row for the
    binder; in the AF3 script [main] finds the output missing after
    [run_ipsae], reports it and adds no result for the binder. *)
Theorem zero_exit_without_output_is_failure `{External} :
  (forall w pred_dir script pae cif c d fs',
     isfile (fs w) (join pred_dir pae) = true ->
     isfile (fs w) (join pred_dir cif) = true ->
     isfile (fs w) (boltz_out_txt pred_dir cif c d) = false ->
     subprocess_run (boltz_cmd pred_dir script pae cif c d) pred_dir (fs w) = (0%Z, fs') ->
     isfile fs' (boltz_out_txt pred_dir cif c d) = false ->
     exists out,
       Boltz.run_ipsae pred_dir script pae cif c d w
       = (Ok None, World fs' (procs w ++ [(boltz_cmd pred_dir script pae cif c d, pred_dir)]) out)
       /\ last out = Some (Print "[ERROR] Expected output {out_txt} not found after ipsae.py."
                                 [path_str (boltz_out_txt pred_dir cif c d)]))
  /\ (forall w script threshold rows binder_dir fs',
        let pred_dir := boltz_pred_dir binder_dir in
        let out := boltz_out_txt pred_dir "input_model_0.cif" 10 10 in
        let cmd := boltz_cmd pred_dir script "pae_input_model_0.npz" "input_model_0.cif" 10 10 in
        isdir (fs w) pred_dir = true ->
        isfile (fs w) (join pred_dir "pae_input_model_0.npz") = true ->
        isfile (fs w) (join pred_dir "input_model_0.cif") = true ->
        isfile (fs w) out = false ->
        subprocess_run cmd pred_dir (fs w) = (0%Z, fs') ->
        isfile fs' out = false ->
        exists stdout',
          Boltz.collect_step script threshold rows binder_dir w
          = (Ok rows, World fs' (procs w ++ [(cmd, pred_dir)]) stdout')
          /\ last stdout' = Some (Print "[ERROR] Expected output {out_txt} not found after ipsae.py."
                                        [path_str out]))
  /\ (forall w base_dir script results binder fs',
        let work_dir := af3_work_dir base_dir binder in
        let txt_path := join work_dir AF3.txt_name in
        isdir (fs w) work_dir = true ->
        present (fs w) txt_path = false ->
        present (fs w) (join work_dir AF3.json_name) = true ->
        present (fs w) (join work_dir AF3.cif_name) = true ->
        subprocess_run (af3_cmd script) work_dir (fs w) = (0%Z, fs') ->
        present fs' txt_path = false ->
        exists stdout',
          AF3.main_step base_dir script results binder w
          = (Ok results, World fs' (procs w ++ [(af3_cmd script, work_dir)]) stdout')
          /\ last stdout' = Some (Print "[WARN] {binder}: output file {txt_path} not found, skipping."
                                        [binder; path_str txt_path])).
Proof.
  split; [|split].
  - intros. now apply boltz_run_missing_output.
  - intros. now apply boltz_step_missing_output.
  - intros. now apply af3_step_missing_output.
Qed.

(** C8, witness: a scorer that exits with status zero and writes nothing,
    on a Boltz and on an AF3 directory that are ready. *)
Lemma zero_exit_without_output_is_failure_witness :
  (exists stdout',
     Boltz.collect_step (H0 := Ex.env Ex.silent) Ex.script (Ex.num "0.7") [] ["run"; "binder_3"]
       Ex.boltz_ready
     = (Ok [], World (fs Ex.boltz_ready)
                     (procs Ex.boltz_ready ++
                      [(boltz_cmd (boltz_pred_dir ["run"; "binder_3"]) Ex.script
                          "pae_input_model_0.npz" "input_model_0.cif" 10 10,
                        boltz_pred_dir ["run"; "binder_3"])]) stdout')
     /\ last stdout' = Some (Print "[ERROR] Expected output {out_txt} not found after ipsae.py."
                                   [path_str (boltz_out_txt (boltz_pred_dir ["run"; "binder_3"])
                                                "input_model_0.cif" 10 10)]))
  /\ (exists stdout',
        AF3.main_step (H0 := Ex.env Ex.silent) ["run"] Ex.script [] "binder_3" Ex.af3_ready
        = (Ok [], World (fs Ex.af3_ready)
                        (procs Ex.af3_ready ++
                         [(af3_cmd (H0 := Ex.env Ex.silent) Ex.script,
                           af3_work_dir ["run"] "binder_3")]) stdout')
        /\ last stdout' = Some (Print "[WARN] {binder}: output file {txt_path} not found, skipping."
                                      ["binder_3";
                                       path_str (join (af3_work_dir ["run"] "binder_3") AF3.txt_name)])).
Proof.
  destruct (@zero_exit_without_output_is_failure binary64 (Ex.env Ex.silent)) as (_ & Hboltz & Haf3).
  split.
  - apply (Hboltz Ex.boltz_ready Ex.script (Ex.num "0.7") [] ["run"; "binder_3"] (fs Ex.boltz_ready)).
    + vm_compute; reflexivity.
    + vm_compute; reflexivity.
    + vm_compute; reflexivity.
    + vm_compute; reflexivity.
    + reflexivity.
    + vm_compute; reflexivity.
  - apply (Haf3 Ex.af3_ready ["run"] Ex.script [] "binder_3" (fs Ex.af3_ready)).
    + vm_compute; reflexivity.
    + vm_compute; reflexivity.
    + vm_compute; reflexivity.
    + vm_compute; reflexivity.
    + reflexivity.
    + vm_compute; reflexivity.
Defined.

Section Reports.
Context `{PyFloat}.

Lemma boltz_parse_read w out_txt content v :
  fs w !! out_txt = Some (File content) ->
  Boltz.parse_ipsae_max_lines (PyStr.readlines content) = Some v ->
  Boltz.parse_ipsae_max out_txt w = (Ok (Some v), w).
Proof.
  intros Hf Hv. unfold Boltz.parse_ipsae_max, IO.bind, IO.read. now rewrite Hf, Hv.
Qed.

Lemma high_rows_above results :
  Forall (fun row => float_gt (snd (fst (fst row))) AF3.high_ipsae = true) (AF3.high_rows results).
Proof.
  unfold AF3.high_rows. apply List.Forall_forall. intros row Hin.
  apply in_map_iff in Hin as (r & <- & Hr). apply filter_In in Hr as [_ Hgt]. exact Hgt.
Qed.

Lemma high_rows_complete results r :
  In r results -> float_gt (AF3.ipsae r) AF3.high_ipsae = true ->
  In (AF3.binder r, AF3.ipsae r, AF3.iptm r, match AF3.seq_b r with Some s => s | None => "" end)
     (AF3.high_rows results).
Proof.
  intros Hin Hgt. unfold AF3.high_rows.
  apply in_map_iff. exists r. split; [reflexivity|]. apply filter_In. auto.
Qed.

End Reports.

(** C6, as the code has it.  The Boltz report [overview.csv] takes a binder
    when its [ipSAE] is greater than or equal to the threshold; the AF3
    report [high_ipsae_sequences.tsv] takes a result when its [ipSAE] is
    greater than 0.75, and the AF3 overview takes every result.  With
    [ipSAE] values 0.5, 0.7, 0.7 and the threshold 0.7 the Boltz report
    holds the two binders at 0.7 and not the one at 0.5; the AF3
    high-confidence report holds none of the three, and it holds none
    either of three results that are at 0.75 exactly or below. *)
Theorem threshold_comparisons_as_coded :
  (forall `{External} w script threshold rows binder_dir out w1 v w2,
     isdir (fs w) (boltz_pred_dir binder_dir) = true ->
     Boltz.run_ipsae (boltz_pred_dir binder_dir) script
       "pae_input_model_0.npz" "input_model_0.cif" 10 10 w = (Ok (Some out), w1) ->
     Boltz.parse_ipsae_max out w1 = (Ok (Some v), w2) ->
     (exists e w', Boltz.collect_step script threshold rows binder_dir w = (Raise e, w')) \/
     (exists iptm seq w',
        Boltz.collect_step script threshold rows binder_dir w
        = (Ok (if float_ge v threshold
               then rows ++ [Boltz.Row (Boltz.name binder_dir) v iptm seq]
               else rows), w')))
  /\ (forall `{External} w root_dir script threshold rows w',
        Boltz.collect_ipsae root_dir script threshold w = (Ok rows, w') ->
        Forall (fun r => float_ge (Boltz.ipSAE r) threshold = true) rows)
  /\ (forall `{PyFloat} results,
        Forall (fun row => float_gt (snd (fst (fst row))) AF3.high_ipsae = true)
               (AF3.high_rows results)
        /\ List.length (AF3.overview_rows results) = List.length results
        /\ forall r, In r results -> float_gt (AF3.ipsae r) AF3.high_ipsae = true ->
             In (AF3.binder r, AF3.ipsae r, AF3.iptm r,
                 match AF3.seq_b r with Some s => s | None => "" end)
                (AF3.high_rows results))
  /\ Ex.report (Boltz.collect_ipsae (H0 := Ex.env Ex.failing) ["run"] Ex.script (Ex.num "0.7")
                  Ex.boltz_world)
     = Some [("binder_2", Ex.num "0.7"); ("binder_3", Ex.num "0.7")]
  /\ fst (AF3.main (H0 := Ex.env Ex.failing) ["run"] Ex.script (Ex.af3_world "0.5" "0.7" "0.7"))
     = Ok ([("binder_1", Ex.num "0.5", Ex.num "0.6");
            ("binder_2", Ex.num "0.7", Ex.num "0.6");
            ("binder_3", Ex.num "0.7", Ex.num "0.6")], [])
  /\ fst (AF3.main (H0 := Ex.env Ex.failing) ["run"] Ex.script (Ex.af3_world "0.5" "0.75" "0.75"))
     = Ok ([("binder_1", Ex.num "0.5", Ex.num "0.6");
            ("binder_2", Ex.num "0.75", Ex.num "0.6");
            ("binder_3", Ex.num "0.75", Ex.num "0.6")], []).
Proof.
  split; [|split; [|split; [|split; [|split]]]].
  - intros. now apply (boltz_step_threshold w script threshold rows binder_dir out w1 v w2).
  - intros. now apply (boltz_collect_rows w root_dir script threshold rows w').
  - intros F results. split; [apply high_rows_above|]. split.
    + unfold AF3.overview_rows. apply length_map.
    + intros r. apply high_rows_complete.
  - vm_compute. reflexivity.
  - vm_compute. reflexivity.
  - vm_compute. reflexivity.
Qed.

(** C6, witness: the loop of [collect_ipsae] on the binder at 0.7 and on
    the binder at 0.5 of [Ex.boltz_world], with the threshold 0.7. *)
Lemma threshold_comparisons_as_coded_witness :
  float_ge (Ex.num "0.7") (Ex.num "0.7") = true
  /\ float_gt (Ex.num "0.7") (Ex.num "0.7") = false
  /\ float_ge (Ex.num "0.5") (Ex.num "0.7") = false
  /\ ((exists e w', Boltz.collect_step (H0 := Ex.env Ex.failing) Ex.script (Ex.num "0.7") []
                      ["run"; "binder_2"] Ex.boltz_world = (Raise e, w')) \/
      (exists iptm seq w',
         Boltz.collect_step (H0 := Ex.env Ex.failing) Ex.script (Ex.num "0.7") []
           ["run"; "binder_2"] Ex.boltz_world
         = (Ok (if float_ge (Ex.num "0.7") (Ex.num "0.7")
                then [] ++ [Boltz.Row (Boltz.name ["run"; "binder_2"]) (Ex.num "0.7") iptm seq]
                else []), w')))
  /\ ((exists e w', Boltz.collect_step (H0 := Ex.env Ex.failing) Ex.script (Ex.num "0.7") []
                      ["run"; "binder_1"] Ex.boltz_world = (Raise e, w')) \/
      (exists iptm seq w',
         Boltz.collect_step (H0 := Ex.env Ex.failing) Ex.script (Ex.num "0.7") []
           ["run"; "binder_1"] Ex.boltz_world
         = (Ok (if float_ge (Ex.num "0.5") (Ex.num "0.7")
                then [] ++ [Boltz.Row (Boltz.name ["run"; "binder_1"]) (Ex.num "0.5") iptm seq]
                else []), w'))).
Proof.
  destruct threshold_comparisons_as_coded as (Hstep & _).
  split; [vm_compute; reflexivity|]. split; [vm_compute; reflexivity|].
  split; [vm_compute; reflexivity|]. split.
  - apply (Hstep binary64 (Ex.env Ex.failing) Ex.boltz_world Ex.script (Ex.num "0.7") []
             ["run"; "binder_2"]
             (boltz_out_txt (boltz_pred_dir ["run"; "binder_2"]) "input_model_0.cif" 10 10)
             Ex.boltz_world (Ex.num "0.7") Ex.boltz_world).
    + vm_compute; reflexivity.
    + apply boltz_run_memo; vm_compute; reflexivity.
    + apply (boltz_parse_read _ _ (Ex.boltz_table "0.7")); vm_compute; reflexivity.
  - apply (Hstep binary64 (Ex.env Ex.failing) Ex.boltz_world Ex.script (Ex.num "0.7") []
             ["run"; "binder_1"]
             (boltz_out_txt (boltz_pred_dir ["run"; "binder_1"]) "input_model_0.cif" 10 10)
             Ex.boltz_world (Ex.num "0.5") Ex.boltz_world).
    + vm_compute; reflexivity.
    + apply boltz_run_memo; vm_compute; reflexivity.
    + apply (boltz_parse_read _ _ (Ex.boltz_table "0.5")); vm_compute; reflexivity.
Defined.

(** C6, counterexample: with [ipSAE] values 0.5, 0.7, 0.7 and the threshold
    0.7 the report of the Boltz pipeline holds two rows, not three: the
    binder at 0.5 is left out. *)
Lemma overview_report_holds_two_rows :
  Ex.report (Boltz.collect_ipsae (H0 := Ex.env Ex.failing) ["run"] Ex.script (Ex.num "0.7")
               Ex.boltz_world)
  = Some [("binder_2", Ex.num "0.7"); ("binder_3", Ex.num "0.7")]
  /\ List.length [("binder_2", Ex.num "0.7"); ("binder_3", Ex.num "0.7")] <> 3%nat.
Proof. split; [vm_compute; reflexivity | discriminate]. Qed.
